(** * Shallow embedding of agent/session/plugins/shell/shell_unix.go

    Go strings are modelled as sequences of Unicode code points (runes,
    [list Z]); all separators used by the code are ASCII, so splitting on
    runes agrees with the byte-level [strings.Split].  The host (external
    commands, the pseudo-terminal driver, ioctl) is an oracle carried in the
    world; the effects the code performs are recorded in a trace, newest
    event first. *)

From Stdlib Require Import ZArith List String Ascii Bool Lia.
Import ListNotations.
Open Scope Z_scope.

(** ** Strings *)

Definition gostring := list Z.

(** A Go string literal (ASCII) as a rune sequence. *)
Fixpoint s2r (s : String.string) : gostring :=
  match s with
  | EmptyString => []
  | String c r => Z.of_nat (nat_of_ascii c) :: s2r r
  end.

(** [unicode.IsSpace] *)
Definition IsSpace (r : Z) : bool :=
  if r <=? 255 then
    (r =? 9) || (r =? 10) || (r =? 11) || (r =? 12) || (r =? 13)
    || (r =? 32) || (r =? 133) || (r =? 160)
  else
    (r =? 5760) || ((8192 <=? r) && (r <=? 8202)) || (r =? 8232)
    || (r =? 8233) || (r =? 8239) || (r =? 8287) || (r =? 12288).

Fixpoint trim_left (s : gostring) : gostring :=
  match s with
  | [] => []
  | c :: r => if IsSpace c then trim_left r else s
  end.

(** [strings.TrimSpace] *)
Definition TrimSpace (s : gostring) : gostring :=
  rev (trim_left (rev (trim_left s))).

(** [strings.Split(s, sep)] for a one-rune separator. *)
Fixpoint Split (s : gostring) (sep : Z) : list gostring :=
  match s with
  | [] => [[]]
  | c :: r =>
      if c =? sep then [] :: Split r sep
      else match Split r sep with
           | x :: xs => (c :: x) :: xs
           | [] => [[c]]
           end
  end.

Definition digit_val (c : Z) : option Z :=
  if (48 <=? c) && (c <=? 57) then Some (c - 48) else None.

Fixpoint parse_digits (acc : Z) (s : gostring) : option Z :=
  match s with
  | [] => Some acc
  | c :: r =>
      match digit_val c with
      | Some d => parse_digits (acc * 10 + d) r
      | None => None
      end
  end.

(** [strconv.Atoi] on a 64-bit platform: optional sign, at least one decimal
    digit, result in the [int64] range; [None] is the returned error. *)
Definition Atoi (s : gostring) : option Z :=
  let '(neg, ds) :=
    match s with
    | c :: r => if c =? 43 then (false, r) else if c =? 45 then (true, r) else (false, s)
    | [] => (false, s)
    end in
  match ds with
  | [] => None
  | _ =>
      match parse_digits 0 ds with
      | None => None
      | Some n =>
          let v := if neg then - n else n in
          if (- 2 ^ 63 <=? v) && (v <=? 2 ^ 63 - 1) then Some v else None
      end
  end.

(** [strconv.Itoa] for the [%d] verb. *)
Fixpoint digits_rev (fuel : nat) (n : Z) : gostring :=
  match fuel with
  | O => []
  | S f => if n <? 10 then [48 + n] else (48 + n mod 10) :: digits_rev f (n / 10)
  end.

Definition Itoa (n : Z) : gostring :=
  if n <? 0 then 45 :: rev (digits_rev 64 (- n)) else rev (digits_rev 64 n).

(** Go integer conversions [uint32(x)] and [uint16(x)]. *)
Definition to_uint32 (x : Z) : Z := x mod 2 ^ 32.
Definition to_uint16 (x : Z) : Z := x mod 2 ^ 16.

(** ** Configuration constants defined outside this file
    ([appconfig], [utility], [mgsConfig]) and the plugin's fields. *)

Record Config := {
  DefaultRunAsUserName : gostring;
  ShellPluginCommandName : gostring;
  ShellPluginCommandArgs : list gostring;
  ScreenBufferSize : Z;
  DefaultSessionLogger : gostring;
  Exit : gostring;
}.

Record ShellPlugin := {
  logFilePath : gostring;
  ipcFilePath : gostring;
}.

(** ** Process and file data *)

(** [syscall.Credential] *)
Record Credential := {
  Uid : Z;
  Gid : Z;
  Groups : list Z;
  NoSetGroups : bool;
}.

(** [exec.Cmd]: [Args] includes the program name, as in Go. *)
Record Cmd := {
  Path : gostring;
  Args : list gostring;
  Env : list gostring;
  SysProcAttrCredential : option Credential;
}.

(** [exec.Command(name, arg...)] *)
Definition exec_Command (name : gostring) (arg : list gostring) : Cmd :=
  {| Path := name; Args := name :: arg; Env := []; SysProcAttrCredential := None |}.

Definition set_Env (c : Cmd) (e : list gostring) : Cmd :=
  {| Path := Path c; Args := Args c; Env := e; SysProcAttrCredential := SysProcAttrCredential c |}.

Definition set_Credential (c : Cmd) (cr : Credential) : Cmd :=
  {| Path := Path c; Args := Args c; Env := Env c; SysProcAttrCredential := Some cr |}.

(** An [os.File] object: its descriptor and whether [Close] has run. *)
Record FileObj := { fo_fd : Z; fo_closed : bool }.

Inductive os_error := ErrInvalid | ErrClosed.

(** The [error] values the code returns. *)
Inductive goerror :=
| ErrCmdOutput (argv : list gostring)      (* cmd.Output() failed *)
| ErrAtoi (s : gostring)                   (* strconv.Atoi failed *)
| ErrInvalidUidGid                         (* errors.New("invalid uid and gid") *)
| ErrStartPty                              (* "Failed to start pty: ..." *)
| ErrCloseFile (e : os_error)              (* "unable to close ptyFile. ..." *)
| ErrSetSize (errno : Z).                  (* "set pty size failed: ..." *)

Definition EBADF : Z := 9.

Inductive event :=
| EvExec (argv : list gostring)
| EvCreateLocalAdminUser
| EvPtyStart (c : Cmd)
| EvWrite (fd : Z) (data : gostring)
| EvClose (fd : Z)
| EvIoctlSetWinsize (fd : Z) (cols rows : Z)
| EvSleep (seconds : Z).

(** ** The world *)

Record world := {
  w_environ : list gostring;                  (* os.Environ() *)
  w_exec : list gostring -> option gostring;  (* stdout of an external command, or its error *)
  w_pty_start : Cmd -> option Z;              (* pty.Start: master descriptor, or error *)
  w_ioctl : Z -> Z * Z -> option Z;           (* TIOCSWINSZ on a valid descriptor: errno on failure *)
  w_ptyFile : option nat;                     (* the package variable ptyFile; None is nil *)
  w_files : list FileObj;                     (* os.File objects, indexed by allocation *)
  w_trace : list event;                       (* newest first *)
}.

Definition with_ptyFile (w : world) (p : option nat) : world :=
  {| w_environ := w_environ w; w_exec := w_exec w; w_pty_start := w_pty_start w;
     w_ioctl := w_ioctl w; w_ptyFile := p; w_files := w_files w; w_trace := w_trace w |}.

Definition with_files (w : world) (fs : list FileObj) : world :=
  {| w_environ := w_environ w; w_exec := w_exec w; w_pty_start := w_pty_start w;
     w_ioctl := w_ioctl w; w_ptyFile := w_ptyFile w; w_files := fs; w_trace := w_trace w |}.

Definition with_event (w : world) (e : event) : world :=
  {| w_environ := w_environ w; w_exec := w_exec w; w_pty_start := w_pty_start w;
     w_ioctl := w_ioctl w; w_ptyFile := w_ptyFile w; w_files := w_files w;
     w_trace := e :: w_trace w |}.

(** ** A state monad with Go panics *)

Inductive outcome (A : Type) := Done (a : A) | Panicked (msg : gostring).
Arguments Done {A} a.
Arguments Panicked {A} msg.

Definition M (A : Type) := world -> outcome A * world.

Definition ret {A} (a : A) : M A := fun w => (Done a, w).

Definition bind {A B} (m : M A) (k : A -> M B) : M B :=
  fun w => match m w with
           | (Done a, w') => k a w'
           | (Panicked msg, w') => (Panicked msg, w')
           end.

Definition panic {A} (msg : gostring) : M A := fun w => (Panicked msg, w).

Definition get : M world := fun w => (Done w, w).

Definition emit (e : event) : M unit := fun w => (Done tt, with_event w e).

Definition modify (f : world -> world) : M unit := fun w => (Done tt, f w).

Notation "'let*' p ':=' m 'in' k" := (bind m (fun p => k))
  (at level 200, p pattern, m at level 100, k at level 200).

(** ** Host primitives used by the code *)

(** Split an environment entry at its first [=]. *)
Fixpoint split_entry (e : gostring) : option (gostring * gostring) :=
  match e with
  | [] => None
  | c :: r =>
      if c =? 61 then Some ([], r)
      else match split_entry r with
           | Some (k, v) => Some (c :: k, v)
           | None => None
           end
  end.

(** [os.Getenv]: the first entry for the key wins; unset is [""]. *)
Fixpoint Getenv (key : gostring) (env : list gostring) : gostring :=
  match env with
  | [] => []
  | e :: r =>
      match split_entry e with
      | Some (k, v) => if list_eq_dec Z.eq_dec k key then v else Getenv key r
      | None => Getenv key r
      end
  end.

(** [cmd.Output()]: runs the command; its stdout, or [None] for an error. *)
Definition Output (c : Cmd) : M (option gostring) :=
  let* w := get in
  let* _ := emit (EvExec (Args c)) in
  ret (w_exec w (Args c)).

Definition Sleep (seconds : Z) : M unit := emit (EvSleep seconds).

Fixpoint list_set {A} (l : list A) (i : nat) (x : A) : list A :=
  match l, i with
  | [], _ => []
  | _ :: r, O => x :: r
  | y :: r, S j => y :: list_set r j x
  end.

(** [pty.Start(cmd)]: allocates a pty, starts [cmd] on its subordinate side
    and returns a new [os.File] for the master, or nil and an error. *)
Definition pty_Start (c : Cmd) : M (option nat) :=
  let* w := get in
  let* _ := emit (EvPtyStart c) in
  match w_pty_start w c with
  | None => ret None
  | Some fd =>
      let id := List.length (w_files w) in
      let* _ := modify (fun w' => with_files w' (w_files w' ++ [{| fo_fd := fd; fo_closed := false |}])) in
      ret (Some id)
  end.

(** [File.Close()] of [os]: nil gives [ErrInvalid]; a second close gives
    [ErrClosed] without a system call. *)
Definition file_Close (f : option nat) : M (option os_error) :=
  match f with
  | None => ret (Some ErrInvalid)
  | Some id =>
      let* w := get in
      match nth_error (w_files w) id with
      | None => ret (Some ErrInvalid)
      | Some fo =>
          if fo_closed fo then ret (Some ErrClosed)
          else
            let* _ := modify (fun w' => with_files w'
                        (list_set (w_files w') id {| fo_fd := fo_fd fo; fo_closed := true |})) in
            let* _ := emit (EvClose (fo_fd fo)) in
            ret None
      end
  end.

(** [File.Fd()] of [os]: a nil or closed file yields the invalid descriptor -1. *)
Definition file_Fd (f : option nat) : M Z :=
  match f with
  | None => ret (-1)
  | Some id =>
      let* w := get in
      match nth_error (w_files w) id with
      | Some fo => ret (if fo_closed fo then -1 else fo_fd fo)
      | None => ret (-1)
      end
  end.

(** [File.Write(b)] of [os]; the code discards its results.  A nil or closed
    file performs no system call. *)
Definition file_Write (f : option nat) (data : gostring) : M unit :=
  match f with
  | None => ret tt
  | Some id =>
      let* w := get in
      match nth_error (w_files w) id with
      | Some fo => if fo_closed fo then ret tt else emit (EvWrite (fo_fd fo) data)
      | None => ret tt
      end
  end.

(** [pty.Setsize(t, ws)]: the TIOCSWINSZ ioctl on [t.Fd()]; the kernel
    rejects a negative descriptor with EBADF. *)
Definition pty_Setsize (f : option nat) (cols rows : Z) : M (option Z) :=
  let* fd := file_Fd f in
  let* w := get in
  let* _ := emit (EvIoctlSetWinsize fd cols rows) in
  ret (if fd <? 0 then Some EBADF else w_ioctl w fd (cols, rows)).

(** ** The code of shell_unix.go *)

Section ShellUnix.

Variable cfg : Config.

Definition termEnvVariable : gostring := s2r "TERM=xterm-256color".
Definition langEnvVariable : gostring := s2r "LANG=C.UTF-8".
Definition langEnvVariableKey : gostring := s2r "LANG".
Definition startRecordSessionCmd : gostring := s2r "script".
Definition newLineCharacter : gostring := s2r "
".
Definition homeEnvVariable : gostring := s2r "HOME=/home/" ++ DefaultRunAsUserName cfg.

(** [exec.Command(utility.ShellPluginCommandName, append(utility.ShellPluginCommandArgs, line)...)] *)
Definition shell_query (line : gostring) : Cmd :=
  exec_Command (ShellPluginCommandName cfg) (ShellPluginCommandArgs cfg ++ [line]).

Definition uid_query : Cmd := shell_query (s2r "id -u " ++ DefaultRunAsUserName cfg).
Definition gid_query : Cmd := shell_query (s2r "id -g " ++ DefaultRunAsUserName cfg).
Definition groups_query : Cmd := shell_query (s2r "groups " ++ DefaultRunAsUserName cfg).
Definition group_query (name : gostring) : Cmd := shell_query (s2r "getent group " ++ name).

(** The loop [for i := 2; i < len(groupNames); i++ { ... }]; [fuel] is the
    number of iterations left, [len(groupNames) - i]. *)
Fixpoint group_ids_loop (groupNames : list gostring) (i : nat) (fuel : nat)
    (groupIds : list Z) : M (list Z + goerror) :=
  match fuel with
  | O => ret (inl groupIds)
  | S fuel' =>
      let name := nth i groupNames [] in
      let* out := Output (group_query name) in
      match out with
      | None => ret (inr (ErrCmdOutput (Args (group_query name))))
      | Some o =>
          match nth_error (Split o 58) 2 with
          | None => panic (s2r "runtime error: index out of range")
          | Some field =>
              match Atoi (TrimSpace field) with
              | None => ret (inr (ErrAtoi (TrimSpace field)))
              | Some groupIdFromName =>
                  group_ids_loop groupNames (S i) fuel' (groupIds ++ [to_uint32 groupIdFromName])
              end
          end
      end
  end.

(** [getUserCredentials]: (uid, gid, groups, err). *)
Definition getUserCredentials : M (Z * Z * list Z * option goerror) :=
  let* out := Output uid_query in
  match out with
  | None => ret (0, 0, [], Some (ErrCmdOutput (Args uid_query)))
  | Some o =>
  match Atoi (TrimSpace o) with
  | None => ret (0, 0, [], Some (ErrAtoi (TrimSpace o)))
  | Some uid =>
  let* out := Output gid_query in
  match out with
  | None => ret (0, 0, [], Some (ErrCmdOutput (Args gid_query)))
  | Some o =>
  match Atoi (TrimSpace o) with
  | None => ret (0, 0, [], Some (ErrAtoi (TrimSpace o)))
  | Some gid =>
  let* out := Output groups_query in
  match out with
  | None => ret (0, 0, [], Some (ErrCmdOutput (Args groups_query)))
  | Some o =>
  let groupNames := Split o 32 in
  let* r := group_ids_loop groupNames 2 (List.length groupNames - 2) [] in
  match r with
  | inr e => ret (0, 0, [], Some e)
  | inl groupIds =>
      if (0 <? uid) && (0 <? gid) then
        ret (to_uint32 uid, to_uint32 gid, groupIds, None)
      else ret (0, 0, [], Some ErrInvalidUidGid)
  end
  end end end end end.

(** The command [StartPty] builds before credentials are attached. *)
Definition shell_cmd (shellCmd : gostring) : Cmd :=
  if list_eq_dec Z.eq_dec (TrimSpace shellCmd) [] then exec_Command (s2r "sh") []
  else exec_Command (s2r "sh") (ShellPluginCommandArgs cfg ++ [shellCmd]).

(** [StartPty]: (stdin, stdout, err); a handle is an index into the world's
    files, [None] is nil.  Logging is not modelled. *)
Definition StartPty (runAsSsmUser : bool) (shellCmd : gostring)
    : M (option nat * option nat * option goerror) :=
  let cmd := shell_cmd shellCmd in
  let* w := get in
  let cmd := set_Env cmd (w_environ w ++ [termEnvVariable; homeEnvVariable]) in
  let langEnvVariableValue := Getenv langEnvVariableKey (w_environ w) in
  let cmd := if list_eq_dec Z.eq_dec langEnvVariableValue []
             then set_Env cmd (Env cmd ++ [langEnvVariable]) else cmd in
  let* cred :=
    if runAsSsmUser then
      let* _ := emit EvCreateLocalAdminUser in
      let* (uid, gid, groups, err) := getUserCredentials in
      match err with
      | Some e => ret (inr e)
      | None => ret (inl (Some {| Uid := uid; Gid := gid; Groups := groups; NoSetGroups := false |}))
      end
    else ret (inl None) in
  match cred with
  | inr e => ret (None, None, Some e)
  | inl c =>
      let cmd := match c with Some cr => set_Credential cmd cr | None => cmd end in
      let* f := pty_Start cmd in
      let* _ := modify (fun w' => with_ptyFile w' f) in
      match f with
      | None => ret (None, None, Some ErrStartPty)
      | Some _ => ret (f, f, None)
      end
  end.

End ShellUnix.

(** [Stop] *)
Definition Stop : M (option goerror) :=
  let* w := get in
  let* e := file_Close (w_ptyFile w) in
  match e with
  | Some e => ret (Some (ErrCloseFile e))
  | None => ret None
  end.

(** [SetSize]: the arguments are [uint32] values. *)
Definition SetSize (ws_col ws_row : Z) : M (option goerror) :=
  let cols := to_uint16 ws_col in
  let rows := to_uint16 ws_row in
  let* w := get in
  let* e := pty_Setsize (w_ptyFile w) cols rows in
  match e with
  | Some errno => ret (Some (ErrSetSize errno))
  | None => ret None
  end.

(** The deferred [recover()] of [generateLogData]: a panic in the body is
    recovered, [Stop] is attempted (its error is only logged) and the
    function returns its zero result, nil. *)
Definition defer_recover_Stop (body : M (option goerror)) : M (option goerror) :=
  fun w =>
    match body w with
    | (Done a, w') => (Done a, w')
    | (Panicked _, w') => (Done None, snd (Stop w'))
    end.

(** [generateLogData] *)
Definition generateLogData (cfg : Config) (p : ShellPlugin) : M (option goerror) :=
  let* (shadowShellInput, _, err) := StartPty cfg false [] in
  match err with
  | Some e => ret (Some e)
  | None =>
      defer_recover_Stop (
        let* _ := Sleep 5 in
        let screenBufferSizeCmdInput :=
          s2r "screen -h " ++ Itoa (ScreenBufferSize cfg) ++ newLineCharacter in
        let* _ := file_Write shadowShellInput screenBufferSizeCmdInput in
        let* _ := Sleep 5 in
        let recordCmdInput :=
          startRecordSessionCmd ++ s2r " " ++ logFilePath p ++ newLineCharacter in
        let* _ := file_Write shadowShellInput recordCmdInput in
        let* _ := Sleep 5 in
        let loggerCmdInput :=
          DefaultSessionLogger cfg ++ s2r " " ++ ipcFilePath p ++ s2r " false" ++ newLineCharacter in
        let* _ := file_Write shadowShellInput loggerCmdInput in
        let* _ := Sleep 60 in
        let exitCmdInput := Exit cfg ++ newLineCharacter in
        let* _ := file_Write shadowShellInput exitCmdInput in
        let* _ := Sleep 30 in
        let* _ := file_Write shadowShellInput exitCmdInput in
        let* _ := Sleep 5 in
        let* _ := file_Write shadowShellInput exitCmdInput in
        let* _ := Sleep 5 in
        let* _ := file_Close shadowShellInput in
        let* _ := Sleep 15 in
        ret None)
  end.

(** ** Sample configuration and hosts *)

Definition sample_cfg : Config := {|
  DefaultRunAsUserName := s2r "ssm-user";
  ShellPluginCommandName := s2r "sh";
  ShellPluginCommandArgs := [s2r "-c"];
  ScreenBufferSize := 30000;
  DefaultSessionLogger := s2r "ssm-session-logger";
  Exit := s2r "exit";
|}.

Definition sample_plugin : ShellPlugin := {|
  logFilePath := s2r "/var/log/session.log";
  ipcFilePath := s2r "/var/lib/ipc";
|}.

(** A host answering the identity queries with fixed outputs. *)
Definition host_exec (uid gid groups : gostring) (group_rec : gostring -> option gostring)
    (argv : list gostring) : option gostring :=
  match argv with
  | [_; _; line] =>
      if list_eq_dec Z.eq_dec line (s2r "id -u ssm-user") then Some uid
      else if list_eq_dec Z.eq_dec line (s2r "id -g ssm-user") then Some gid
      else if list_eq_dec Z.eq_dec line (s2r "groups ssm-user") then Some groups
      else match split_entry (map (fun c => if c =? 32 then 61 else c) line) with
           | Some (_, rest) =>
               match split_entry (map (fun c => if c =? 32 then 61 else c) rest) with
               | Some (_, name) => group_rec name
               | None => None
               end
           | None => None
           end
  | _ => None
  end.

Definition sample_world (env : list gostring) (ex : list gostring -> option gostring)
    (ptyFile : option nat) (files : list FileObj) : world := {|
  w_environ := env;
  w_exec := ex;
  w_pty_start := fun _ => Some 5;
  w_ioctl := fun _ _ => None;
  w_ptyFile := ptyFile;
  w_files := files;
  w_trace := [];
|}.

Definition test_groups_rec (name : gostring) : option gostring :=
  if list_eq_dec Z.eq_dec name (s2r "ssm-user") then Some (s2r "ssm-user:x:1001:")
  else if list_eq_dec Z.eq_dec name (s2r "test
") then Some (s2r "test:x:1004:ssm-user
")
  else None.

Definition test_host : list gostring -> option gostring :=
  host_exec (s2r "1001
") (s2r "1001
") (s2r "ssm-user : ssm-user test
") test_groups_rec.

(** Events performed in order on top of a world. *)
Definition push (w : world) (es : list event) : world := fold_left with_event es w.

Definition group_query_event (cfg : Config) (name : gostring) : event :=
  EvExec (Args (group_query cfg name)).

(** A group-database query that succeeds and whose third field parses. *)
Definition group_ok (cfg : Config) (ex : list gostring -> option gostring) (name : gostring) : Prop :=
  exists r f g, ex (Args (group_query cfg name)) = Some r
                /\ nth_error (Split r 58) 2 = Some f /\ Atoi (TrimSpace f) = Some g.

(** The supplementary groups of a child started from [c] by a parent whose
    groups are [parent]: the child-side credential step of [forkExec] calls
    setgroups with [Groups] unless [NoSetGroups] is set. *)
Definition child_groups (parent : list Z) (c : Cmd) : list Z :=
  match SysProcAttrCredential c with
  | Some cr => if NoSetGroups cr then parent else Groups cr
  | None => parent
  end.

(** The tail of [getUserCredentials] after its group loop. *)
Definition finish_credentials (uid gid : Z) (r : outcome (list Z + goerror) * world)
    : outcome (Z * Z * list Z * option goerror) * world :=
  match r with
  | (Done (inr e), w') => (Done (0, 0, [], Some e), w')
  | (Done (inl groupIds), w') =>
      (Done (if (0 <? uid) && (0 <? gid) then (to_uint32 uid, to_uint32 gid, groupIds, None)
             else (0, 0, [], Some ErrInvalidUidGid)), w')
  | (Panicked m, w') => (Panicked m, w')
  end.

(** The tail of [StartPty] from [pty.Start(cmd)] on. *)
Definition pty_start_tail (cmd : Cmd) : M (option nat * option nat * option goerror) :=
  let* f := pty_Start cmd in
  let* _ := modify (fun w' => with_ptyFile w' f) in
  match f with
  | None => ret (None, None, Some ErrStartPty)
  | Some _ => ret (f, f, None)
  end.

(** The command [StartPty] builds in a world, before credentials. *)
Definition startpty_base_cmd (cfg : Config) (shellCmd : gostring) (w : world) : Cmd :=
  let cmd := set_Env (shell_cmd cfg shellCmd) (w_environ w ++ [termEnvVariable; homeEnvVariable cfg]) in
  if list_eq_dec Z.eq_dec (Getenv langEnvVariableKey (w_environ w)) []
  then set_Env cmd (Env cmd ++ [langEnvVariable]) else cmd.

Definition is_exec (e : event) : Prop := exists a, e = EvExec a.

(** The events of [generateLogData]'s script on the master descriptor [fd]:
    three commands, three exits and the close, each followed by its sleep. *)
Definition generateLogData_script (cfg : Config) (p : ShellPlugin) (fd : Z) : list event :=
  [EvSleep 5;
         EvWrite fd (s2r "screen -h " ++ Itoa (ScreenBufferSize cfg) ++ newLineCharacter);
         EvSleep 5;
         EvWrite fd (startRecordSessionCmd ++ s2r " " ++ logFilePath p ++ newLineCharacter);
         EvSleep 5;
         EvWrite fd (DefaultSessionLogger cfg ++ s2r " " ++ ipcFilePath p ++ s2r " false" ++ newLineCharacter);
         EvSleep 60;
         EvWrite fd (Exit cfg ++ newLineCharacter);
         EvSleep 30;
         EvWrite fd (Exit cfg ++ newLineCharacter);
         EvSleep 5;
         EvWrite fd (Exit cfg ++ newLineCharacter);
         EvSleep 5;
         EvClose fd;
         EvSleep 15].

(** Concrete hosts for the witnesses. *)
Definition groups_out : gostring := s2r "ssm-user : ssm-user test
".

Definition test_world : world := sample_world [] test_host None [].

(** A host where the restricted user resolves to uid 0 and gid 0. *)
Definition root_world : world :=
  sample_world [] (host_exec (s2r "0
") (s2r "0
") groups_out test_groups_rec) None [].

(** A host where every query fails (the user does not exist). *)
Definition nouser_world : world := sample_world [] (fun _ => None) None [].

(** A host whose group database answers a well-formed record for the
    first group and a record without ':' fields for the second. *)
Definition badgroup_world : world :=
  sample_world [] (host_exec (s2r "1001
") (s2r "1001
") groups_out
                     (fun name => if list_eq_dec Z.eq_dec name (s2r "ssm-user")
                                  then Some (s2r "ssm-user:x:1001:")
                                  else Some (s2r "test
"))) None [].

(** A world whose [ptyFile] is an open master on descriptor 5. *)
Definition open_world : world :=
  sample_world [] test_host (Some 0%nat) [{| fo_fd := 5; fo_closed := false |}].

(** A world tracking an open session on descriptor 5 whose host refuses
    [pty.Start]. *)
Definition nopty_world : world := {|
  w_environ := [];
  w_exec := test_host;
  w_pty_start := fun _ => None;
  w_ioctl := fun _ _ => None;
  w_ptyFile := Some 0%nat;
  w_files := [{| fo_fd := 5; fo_closed := false |}];
  w_trace := [];
|}.

(** Total seconds slept in a trace. *)
Fixpoint sleep_total (es : list event) : Z :=
  match es with
  | [] => 0
  | EvSleep n :: r => n + sleep_total r
  | _ :: r => sleep_total r
  end.

(** ** Properties *)

Example getUserCredentials_test :
  fst (getUserCredentials sample_cfg (sample_world [] test_host None []))
  = Done (1001, 1001, [1001; 1004], None).
Proof. vm_compute. reflexivity. Qed.

Lemma push_app w es1 es2 : push w (es1 ++ es2) = push (push w es1) es2.
Proof. unfold push. apply fold_left_app. Qed.

Lemma push_exec w es : w_exec (push w es) = w_exec w.
Proof. revert w; induction es; intros; simpl; auto. rewrite IHes; reflexivity. Qed.

Lemma push_environ w es : w_environ (push w es) = w_environ w.
Proof. revert w; induction es; intros; simpl; auto. rewrite IHes; reflexivity. Qed.

Lemma push_pty_start w es : w_pty_start (push w es) = w_pty_start w.
Proof. revert w; induction es; intros; simpl; auto. rewrite IHes; reflexivity. Qed.

Lemma push_ptyFile w es : w_ptyFile (push w es) = w_ptyFile w.
Proof. revert w; induction es; intros; simpl; auto. rewrite IHes; reflexivity. Qed.

Lemma push_files w es : w_files (push w es) = w_files w.
Proof. revert w; induction es; intros; simpl; auto. rewrite IHes; reflexivity. Qed.

Lemma push_trace w es : w_trace (push w es) = rev es ++ w_trace w.
Proof.
  revert w; induction es; intros; simpl; auto.
  rewrite IHes; simpl. rewrite <- app_assoc. reflexivity.
Qed.

Lemma skipn_nth_cons {A} (l : list A) (i : nat) (d : A) :
  (i < List.length l)%nat -> skipn i l = nth i l d :: skipn (S i) l.
Proof.
  revert i; induction l as [|x l IH]; intros i Hi; simpl in *; [lia|].
  destruct i; simpl; auto. apply IH; lia.
Qed.

Lemma skipn_length_ge {A} (l : list A) (i : nat) :
  (List.length l <= i)%nat -> skipn i l = [].
Proof. intros; apply skipn_all2; lia. Qed.

Ltac unfold_monad :=
  unfold Output, Sleep, pty_Start, pty_Setsize in *; unfold file_Close, file_Fd, file_Write in *;
  unfold bind, ret, get, emit, modify, panic in *; cbv beta iota zeta in *.

(** Every iteration of the group loop queries the next name; the loop stops
    only at a failing query or after the last name. *)
Lemma group_ids_loop_trace cfg names : forall fuel i acc w,
  fuel = (List.length names - i)%nat ->
  exists k o, (k <= List.length (skipn i names))%nat /\
    group_ids_loop cfg names i fuel acc w
      = (o, push w (map (group_query_event cfg) (firstn k (skipn i names)))) /\
    (Forall (group_ok cfg (w_exec w)) (skipn i names) ->
       k = List.length (skipn i names) /\ exists ids, o = Done (inl (acc ++ ids))).
Proof.
  induction fuel as [|f IH]; intros i acc w Hf.
  - rewrite skipn_length_ge by lia.
    exists O, (Done (inl acc)). simpl. split; [lia|]. split; [reflexivity|].
    intros _. split; [reflexivity|]. exists []. rewrite app_nil_r. reflexivity.
  - assert (Hi : (i < List.length names)%nat) by lia.
    rewrite (skipn_nth_cons names i [] Hi).
    set (n := nth i names []).
    cbn [group_ids_loop]. fold n. unfold_monad.
    destruct (w_exec w (Args (group_query cfg n))) as [r|] eqn:Ex.
    2:{ exists 1%nat, (Done (inr (ErrCmdOutput (Args (group_query cfg n))))).
        simpl. split; [lia|]. split; [reflexivity|].
        intros HF. inversion HF as [|? ? Hn]; subst.
        destruct Hn as (r & f' & g & Hr & _). congruence. }
    destruct (nth_error (Split r 58) 2) as [fld|] eqn:Ef.
    2:{ eexists 1%nat, _. simpl. split; [lia|]. split; [reflexivity|].
        intros HF. inversion HF as [|? ? Hn]; subst.
        destruct Hn as (r' & f' & g & Hr & Hf' & _). congruence. }
    destruct (Atoi (TrimSpace fld)) as [g|] eqn:Eg.
    2:{ eexists 1%nat, _. simpl. split; [lia|]. split; [reflexivity|].
        intros HF. inversion HF as [|? ? Hn]; subst.
        destruct Hn as (r' & f' & g & Hr & Hf' & Hg). congruence. }
    destruct (IH (S i) (acc ++ [to_uint32 g]) (with_event w (group_query_event cfg n)))
      as (k & o & Hk & Heq & Hall); [lia|].
    exists (S k), o. split; [cbn [List.length]; lia|]. split.
    + unfold group_query_event in Heq. rewrite Heq. reflexivity.
    + intros HF. inversion HF; subst.
      destruct (Hall H2) as (-> & ids & ->). split; [reflexivity|].
      exists (to_uint32 g :: ids). rewrite <- app_assoc. reflexivity.
Qed.

(** [getUserCredentials] once the uid, gid and membership queries have
    succeeded: the group loop over the membership output decides the rest. *)
Lemma getUserCredentials_after_queries cfg w ou uid og gid ogr :
  w_exec w (Args (uid_query cfg)) = Some ou -> Atoi (TrimSpace ou) = Some uid ->
  w_exec w (Args (gid_query cfg)) = Some og -> Atoi (TrimSpace og) = Some gid ->
  w_exec w (Args (groups_query cfg)) = Some ogr ->
  getUserCredentials cfg w =
    finish_credentials uid gid
      (group_ids_loop cfg (Split ogr 32) 2 (List.length (Split ogr 32) - 2) []
         (push w [EvExec (Args (uid_query cfg)); EvExec (Args (gid_query cfg));
                  EvExec (Args (groups_query cfg))])).
Proof.
  intros H1 H2 H3 H4 H5.
  unfold getUserCredentials; unfold_monad.
  cbn [w_exec with_event]. rewrite H1, H2. cbn [w_exec with_event]. rewrite H3, H4.
  cbn [w_exec with_event]. rewrite H5.
  unfold finish_credentials. simpl push.
  destruct (group_ids_loop _ _ _ _ _ _) as [[[ids|e]|m] w'];
    [destruct ((0 <? uid) && (0 <? gid))|..]; reflexivity.
Qed.

(** C1: a credential is returned only when the parsed uid and gid are both
    positive; with every query succeeding, a non-positive uid or gid yields
    the "invalid uid and gid" error and no credential. *)
Theorem getUserCredentials_rejects_nonpositive cfg w :
  (forall u g gs, fst (getUserCredentials cfg w) = Done (u, g, gs, None) ->
     exists ou uid og gid,
       w_exec w (Args (uid_query cfg)) = Some ou /\ Atoi (TrimSpace ou) = Some uid /\
       w_exec w (Args (gid_query cfg)) = Some og /\ Atoi (TrimSpace og) = Some gid /\
       0 < uid /\ 0 < gid /\ u = to_uint32 uid /\ g = to_uint32 gid)
  /\
  (forall ou uid og gid ogr,
     w_exec w (Args (uid_query cfg)) = Some ou -> Atoi (TrimSpace ou) = Some uid ->
     w_exec w (Args (gid_query cfg)) = Some og -> Atoi (TrimSpace og) = Some gid ->
     w_exec w (Args (groups_query cfg)) = Some ogr ->
     Forall (group_ok cfg (w_exec w)) (skipn 2 (Split ogr 32)) ->
     uid <= 0 \/ gid <= 0 ->
     fst (getUserCredentials cfg w) = Done (0, 0, [], Some ErrInvalidUidGid)).
Proof.
  split.
  - intros u g gs H.
    destruct (w_exec w (Args (uid_query cfg))) as [ou|] eqn:E1;
      [|unfold getUserCredentials in H; unfold_monad; cbn [w_exec with_event] in H;
        rewrite E1 in H; discriminate].
    destruct (Atoi (TrimSpace ou)) as [uid|] eqn:A1;
      [|unfold getUserCredentials in H; unfold_monad; cbn [w_exec with_event] in H;
        rewrite E1, A1 in H; discriminate].
    destruct (w_exec w (Args (gid_query cfg))) as [og|] eqn:E2;
      [|unfold getUserCredentials in H; unfold_monad; cbn [w_exec with_event] in H;
        rewrite E1, A1 in H; cbn [w_exec with_event] in H; rewrite E2 in H; discriminate].
    destruct (Atoi (TrimSpace og)) as [gid|] eqn:A2;
      [|unfold getUserCredentials in H; unfold_monad; cbn [w_exec with_event] in H;
        rewrite E1, A1 in H; cbn [w_exec with_event] in H; rewrite E2, A2 in H; discriminate].
    destruct (w_exec w (Args (groups_query cfg))) as [ogr|] eqn:E3;
      [|unfold getUserCredentials in H; unfold_monad; cbn [w_exec with_event] in H;
        rewrite E1, A1 in H; cbn [w_exec with_event] in H; rewrite E2, A2 in H;
        cbn [w_exec with_event] in H; rewrite E3 in H; discriminate].
    rewrite (getUserCredentials_after_queries cfg w ou uid og gid ogr E1 A1 E2 A2 E3) in H.
    unfold finish_credentials in H.
    destruct (group_ids_loop _ _ _ _ _ _) as [[[ids|e]|m] w'];
      try discriminate.
    destruct (0 <? uid) eqn:U; destruct (0 <? gid) eqn:G; try discriminate.
    apply Z.ltb_lt in U, G. cbn in H. injection H as <- <- <-.
    exists ou, uid, og, gid. repeat split; assumption.
  - intros ou uid og gid ogr E1 A1 E2 A2 E3 Hall Hneg.
    rewrite (getUserCredentials_after_queries cfg w ou uid og gid ogr E1 A1 E2 A2 E3).
    set (names := Split ogr 32).
    destruct (group_ids_loop_trace cfg names (List.length names - 2) 2 []
      (push w [EvExec (Args (uid_query cfg)); EvExec (Args (gid_query cfg));
               EvExec (Args (groups_query cfg))]) eq_refl)
      as (k & o & _ & Heq & Hk).
    rewrite push_exec in Hk. destruct (Hk Hall) as (_ & ids & ->).
    rewrite Heq. unfold finish_credentials.
    destruct Hneg as [Hu|Hg].
    + replace (0 <? uid) with false by (symmetry; apply Z.ltb_ge; lia). reflexivity.
    + replace (0 <? gid) with false by (symmetry; apply Z.ltb_ge; lia).
      rewrite andb_false_r. reflexivity.
Qed.

Lemma finish_credentials_world uid gid o w' :
  snd (finish_credentials uid gid (o, w')) = w'.
Proof. destruct o as [[ids|e]|m]; reflexivity. Qed.

(** C4: after the uid, gid and membership queries, the membership output is
    split on single spaces and the group database is queried, in order, for
    the tokens from the third on: never for the first two, and for every
    later token when each of these queries succeeds (a failing one ends the
    resolution). *)
Theorem group_names_skip_first_two cfg w ou uid og gid ogr :
  w_exec w (Args (uid_query cfg)) = Some ou -> Atoi (TrimSpace ou) = Some uid ->
  w_exec w (Args (gid_query cfg)) = Some og -> Atoi (TrimSpace og) = Some gid ->
  w_exec w (Args (groups_query cfg)) = Some ogr ->
  exists k, (k <= List.length (skipn 2 (Split ogr 32)))%nat /\
    w_trace (snd (getUserCredentials cfg w)) =
      rev (map (fun name => EvExec (Args (group_query cfg name)))
                 (firstn k (skipn 2 (Split ogr 32))))
      ++ [EvExec (Args (groups_query cfg)); EvExec (Args (gid_query cfg));
          EvExec (Args (uid_query cfg))] ++ w_trace w /\
    (Forall (group_ok cfg (w_exec w)) (skipn 2 (Split ogr 32)) ->
       k = List.length (skipn 2 (Split ogr 32))).
Proof.
  intros E1 A1 E2 A2 E3.
  rewrite (getUserCredentials_after_queries cfg w ou uid og gid ogr E1 A1 E2 A2 E3).
  set (names := Split ogr 32).
  destruct (group_ids_loop_trace cfg names (List.length names - 2) 2 []
    (push w [EvExec (Args (uid_query cfg)); EvExec (Args (gid_query cfg));
             EvExec (Args (groups_query cfg))]) eq_refl)
    as (k & o & Hk & Heq & Hall).
  exists k. split; [exact Hk|]. split.
  - rewrite Heq, finish_credentials_world, !push_trace. reflexivity.
  - rewrite push_exec in Hall. intros HF. apply (Hall HF).
Qed.

Lemma Split_length s sep :
  List.length (Split s sep) = S (count_occ Z.eq_dec s sep).
Proof.
  induction s as [|c r IH]; simpl; [reflexivity|].
  destruct (c =? sep) eqn:E.
  - apply Z.eqb_eq in E; subst. destruct (Z.eq_dec sep sep); [|congruence].
    simpl. rewrite IH. reflexivity.
  - apply Z.eqb_neq in E. destruct (Z.eq_dec c sep); [congruence|].
    destruct (Split r sep) as [|x xs]; simpl in *; congruence.
Qed.

Lemma nth_error_None_length {A} (l : list A) n :
  nth_error l n = None <-> (List.length l <= n)%nat.
Proof. apply nth_error_None. Qed.

(** The group loop panics at the first reached record without a third
    field, once every earlier record has resolved. *)
Lemma group_ids_loop_panic cfg names : forall k i fuel acc w name r,
  fuel = (List.length names - i)%nat ->
  nth_error names (i + k) = Some name ->
  Forall (group_ok cfg (w_exec w)) (firstn k (skipn i names)) ->
  w_exec w (Args (group_query cfg name)) = Some r ->
  nth_error (Split r 58) 2 = None ->
  fst (group_ids_loop cfg names i fuel acc w) = Panicked (s2r "runtime error: index out of range").
Proof.
  induction k as [|k IH]; intros i fuel acc w name r Hf Hn Hok Er Ef.
  - rewrite Nat.add_0_r in Hn.
    assert (Hi : (i < List.length names)%nat) by (apply nth_error_Some; congruence).
    destruct fuel as [|f]; [lia|].
    assert (Hnth : nth i names [] = name) by (apply nth_error_nth; exact Hn).
    cbn [group_ids_loop]. rewrite Hnth. unfold_monad. rewrite Er, Ef. reflexivity.
  - assert (Hi : (i < List.length names)%nat).
    { assert (i + S k < List.length names)%nat by (apply nth_error_Some; congruence). lia. }
    destruct fuel as [|f]; [lia|].
    rewrite (skipn_nth_cons names i [] Hi) in Hok. cbn [firstn] in Hok.
    apply Forall_cons_iff in Hok as [Hg Hrest].
    destruct Hg as (r0 & f0 & g & Er0 & Ef0 & Eg).
    cbn [group_ids_loop]. unfold_monad. rewrite Er0. cbv beta iota. rewrite Ef0. cbv beta iota.
    rewrite Eg.
    apply (IH (S i) f _ _ name r); [lia | rewrite <- Hn; f_equal; lia | exact Hrest | exact Er | exact Ef].
Qed.

(** C10: the third ':'-separated field of a group record is read without a
    length check: the access is in range exactly when the record has at
    least two ':' separators, and any group record the loop reaches (every
    earlier group resolved) with fewer makes the resolution panic with an
    index out of range. *)
Theorem group_id_field_unchecked cfg w ou uid og gid ogr k name r :
  w_exec w (Args (uid_query cfg)) = Some ou -> Atoi (TrimSpace ou) = Some uid ->
  w_exec w (Args (gid_query cfg)) = Some og -> Atoi (TrimSpace og) = Some gid ->
  w_exec w (Args (groups_query cfg)) = Some ogr ->
  nth_error (skipn 2 (Split ogr 32)) k = Some name ->
  Forall (group_ok cfg (w_exec w)) (firstn k (skipn 2 (Split ogr 32))) ->
  w_exec w (Args (group_query cfg name)) = Some r ->
  (nth_error (Split r 58) 2 = None <-> (count_occ Z.eq_dec r 58%Z < 2)%nat) /\
  ((count_occ Z.eq_dec r 58%Z < 2)%nat ->
     fst (getUserCredentials cfg w) = Panicked (s2r "runtime error: index out of range")).
Proof.
  intros E1 A1 E2 A2 E3 Hn Hok Er.
  assert (Hr : nth_error (Split r 58) 2 = None <-> (count_occ Z.eq_dec r 58%Z < 2)%nat).
  { rewrite nth_error_None_length, Split_length. lia. }
  split; [exact Hr|]. intros Hc. apply Hr in Hc.
  rewrite (getUserCredentials_after_queries cfg w ou uid og gid ogr E1 A1 E2 A2 E3).
  rewrite nth_error_skipn in Hn.
  pose proof (group_ids_loop_panic cfg (Split ogr 32) k 2 _ []
    (push w [EvExec (Args (uid_query cfg)); EvExec (Args (gid_query cfg));
             EvExec (Args (groups_query cfg))]) name r eq_refl Hn) as HP.
  rewrite push_exec in HP. specialize (HP Hok Er Hc).
  unfold finish_credentials.
  destruct (group_ids_loop _ _ _ _ _ _) as [o w'] eqn:L. cbn [fst] in HP. subst o. reflexivity.
Qed.

Ltac one_exec := apply Forall_cons; [eexists; reflexivity|].

(** Credential resolution only runs external queries. *)
Lemma getUserCredentials_world cfg w :
  exists es, Forall is_exec es /\ snd (getUserCredentials cfg w) = push w es.
Proof.
  destruct (w_exec w (Args (uid_query cfg))) as [ou|] eqn:E1;
    [|unfold getUserCredentials; unfold_monad; cbn [w_exec with_event]; rewrite E1;
      eexists [_]; split; [repeat one_exec; constructor|reflexivity]].
  destruct (Atoi (TrimSpace ou)) as [uid|] eqn:A1;
    [|unfold getUserCredentials; unfold_monad; cbn [w_exec with_event]; rewrite E1, A1;
      eexists [_]; split; [repeat one_exec; constructor|reflexivity]].
  destruct (w_exec w (Args (gid_query cfg))) as [og|] eqn:E2;
    [|unfold getUserCredentials; unfold_monad; cbn [w_exec with_event]; rewrite E1, A1;
      cbn [w_exec with_event]; rewrite E2;
      eexists [_; _]; split; [repeat one_exec; constructor|reflexivity]].
  destruct (Atoi (TrimSpace og)) as [gid|] eqn:A2;
    [|unfold getUserCredentials; unfold_monad; cbn [w_exec with_event]; rewrite E1, A1;
      cbn [w_exec with_event]; rewrite E2, A2;
      eexists [_; _]; split; [repeat one_exec; constructor|reflexivity]].
  destruct (w_exec w (Args (groups_query cfg))) as [ogr|] eqn:E3;
    [|unfold getUserCredentials; unfold_monad; cbn [w_exec with_event]; rewrite E1, A1;
      cbn [w_exec with_event]; rewrite E2, A2; cbn [w_exec with_event]; rewrite E3;
      eexists [_; _; _]; split; [repeat one_exec; constructor|reflexivity]].
  rewrite (getUserCredentials_after_queries cfg w ou uid og gid ogr E1 A1 E2 A2 E3).
  set (names := Split ogr 32).
  destruct (group_ids_loop_trace cfg names (List.length names - 2) 2 []
    (push w [EvExec (Args (uid_query cfg)); EvExec (Args (gid_query cfg));
             EvExec (Args (groups_query cfg))]) eq_refl)
    as (k & o & _ & Heq & _).
  rewrite Heq, finish_credentials_world, <- push_app.
  eexists; split; [|reflexivity].
  apply Forall_app; split; [repeat one_exec; constructor|].
  apply Forall_map, Forall_forall. intros x _. eexists; reflexivity.
Qed.

Lemma pty_start_tail_run c w :
  pty_start_tail c w =
    match w_pty_start w c with
    | None => (Done (None, None, Some ErrStartPty), with_ptyFile (with_event w (EvPtyStart c)) None)
    | Some fd =>
        let id := List.length (w_files w) in
        (Done (Some id, Some id, None),
         with_ptyFile (with_files (with_event w (EvPtyStart c))
                         (w_files w ++ [{| fo_fd := fd; fo_closed := false |}])) (Some id))
    end.
Proof.
  unfold pty_start_tail; unfold_monad. cbn [w_pty_start with_event].
  destruct (w_pty_start w c); reflexivity.
Qed.

(** [StartPty] by cases on the requested identity and the resolver's result. *)
Lemma StartPty_cases cfg runAs s w :
  StartPty cfg runAs s w =
    if runAs then
      match getUserCredentials cfg (with_event w EvCreateLocalAdminUser) with
      | (Done (_, _, _, Some e), w') => (Done (None, None, Some e), w')
      | (Done (uid, gid, groups, None), w') =>
          pty_start_tail (set_Credential (startpty_base_cmd cfg s w)
            {| Uid := uid; Gid := gid; Groups := groups; NoSetGroups := false |}) w'
      | (Panicked m, w') => (Panicked m, w')
      end
    else pty_start_tail (startpty_base_cmd cfg s w) w.
Proof.
  unfold StartPty, startpty_base_cmd, pty_start_tail; unfold_monad.
  destruct runAs; [|reflexivity].
  destruct (getUserCredentials cfg (with_event w EvCreateLocalAdminUser))
    as [[[[[u g] gs] [e|]]|m] w']; reflexivity.
Qed.

Lemma not_in_exec_events c es e0 :
  Forall is_exec es -> e0 <> EvPtyStart c -> ~ In (EvPtyStart c) (rev es ++ [e0]).
Proof.
  intros Hes Hne Hin. apply in_app_or in Hin as [Hin|Hin].
  - apply in_rev in Hin. rewrite Forall_forall in Hes.
    destruct (Hes _ Hin) as [a Ha]. discriminate.
  - destruct Hin as [Hin|[]]. congruence.
Qed.

(** The commands [StartPty] hands to [pty.Start]: built from the shell
    command and the caller's environment, with credentials added or not. *)
Lemma StartPty_spawned cfg runAs s w :
  exists delta, w_trace (snd (StartPty cfg runAs s w)) = delta ++ w_trace w /\
    (forall c, In (EvPtyStart c) delta ->
       Path c = s2r "sh" /\ Args c = Args (shell_cmd cfg s) /\
       Env c = Env (startpty_base_cmd cfg s w)) /\
    (runAs = false -> In (EvPtyStart (startpty_base_cmd cfg s w)) delta).
Proof.
  assert (Hbase : Path (startpty_base_cmd cfg s w) = s2r "sh" /\
                  Args (startpty_base_cmd cfg s w) = Args (shell_cmd cfg s)).
  { unfold startpty_base_cmd, shell_cmd.
    destruct (list_eq_dec Z.eq_dec (Getenv langEnvVariableKey (w_environ w)) []);
    destruct (list_eq_dec Z.eq_dec (TrimSpace s) []); split; reflexivity. }
  rewrite StartPty_cases. destruct runAs.
  - destruct (getUserCredentials_world cfg (with_event w EvCreateLocalAdminUser))
      as (es & Hes & Hw).
    destruct (getUserCredentials cfg (with_event w EvCreateLocalAdminUser))
      as [o w'] eqn:G. cbn [snd] in Hw. subst w'.
    destruct o as [[[[u g] gs] [e|]]|m].
    + exists (rev es ++ [EvCreateLocalAdminUser]). cbn [snd].
      rewrite push_trace. split; [cbn; rewrite <- app_assoc; reflexivity|].
      split; [|intros Hft; discriminate Hft]. intros c Hin. exfalso.
      exact (not_in_exec_events c es EvCreateLocalAdminUser Hes ltac:(discriminate) Hin).
    + set (c := set_Credential _ _).
      exists (EvPtyStart c :: rev es ++ [EvCreateLocalAdminUser]).
      rewrite pty_start_tail_run.
      split.
      * destruct (w_pty_start _ c); cbn [snd w_trace with_ptyFile with_files with_event];
          rewrite push_trace; cbn; rewrite <- app_assoc; reflexivity.
      * split; [|intros Hft; discriminate Hft]. intros c' [Hc|Hin].
        -- injection Hc as <-. exact (conj (proj1 Hbase) (conj (proj2 Hbase) eq_refl)).
        -- exfalso. exact (not_in_exec_events c' es EvCreateLocalAdminUser Hes ltac:(discriminate) Hin).
    + exists (rev es ++ [EvCreateLocalAdminUser]). cbn [snd].
      rewrite push_trace. split; [cbn; rewrite <- app_assoc; reflexivity|].
      split; [|intros Hft; discriminate Hft]. intros c Hin. exfalso.
      exact (not_in_exec_events c es EvCreateLocalAdminUser Hes ltac:(discriminate) Hin).
  - exists [EvPtyStart (startpty_base_cmd cfg s w)].
    rewrite pty_start_tail_run. split.
    + destruct (w_pty_start _ _); reflexivity.
    + split; [|intros _; left; reflexivity].
      intros c [Hc|[]]. injection Hc as <-.
      exact (conj (proj1 Hbase) (conj (proj2 Hbase) eq_refl)).
Qed.

(** C2: the shell is [sh]; an empty or all-space command starts it with no
    arguments, any other command is passed whole, as the one argument after
    the configured shell flags. *)
Theorem StartPty_shell_args cfg runAs s w :
  exists delta, w_trace (snd (StartPty cfg runAs s w)) = delta ++ w_trace w /\
    (forall c, In (EvPtyStart c) delta ->
       Path c = s2r "sh" /\
       (TrimSpace s = [] -> Args c = [s2r "sh"]) /\
       (TrimSpace s <> [] -> Args c = s2r "sh" :: ShellPluginCommandArgs cfg ++ [s])) /\
    (runAs = false -> exists c, In (EvPtyStart c) delta).
Proof.
  destruct (StartPty_spawned cfg runAs s w) as (delta & Ht & Hc & Hf).
  exists delta. split; [exact Ht|]. split.
  - intros c Hin. destruct (Hc c Hin) as (Hp & Ha & _).
    split; [exact Hp|]. rewrite Ha. unfold shell_cmd.
    destruct (list_eq_dec Z.eq_dec (TrimSpace s) []) as [E|E];
      split; intros H; try contradiction; reflexivity.
  - intros H. exists (startpty_base_cmd cfg s w). exact (Hf H).
Qed.

(** C5: the child's environment is the caller's, then the TERM and HOME
    overrides, then LANG=C.UTF-8 exactly when the caller's LANG is empty or
    unset; a caller with a non-empty LANG gets no second LANG entry. *)
Theorem StartPty_child_env cfg runAs s w :
  exists delta, w_trace (snd (StartPty cfg runAs s w)) = delta ++ w_trace w /\
    (forall c, In (EvPtyStart c) delta ->
       Env c = w_environ w ++ [termEnvVariable; homeEnvVariable cfg]
               ++ (if list_eq_dec Z.eq_dec (Getenv langEnvVariableKey (w_environ w)) []
                   then [langEnvVariable] else [])) /\
    (Getenv langEnvVariableKey (w_environ w) <> [] ->
       forall c, In (EvPtyStart c) delta ->
         Env c = w_environ w ++ [termEnvVariable; homeEnvVariable cfg]) /\
    (runAs = false -> exists c, In (EvPtyStart c) delta).
Proof.
  destruct (StartPty_spawned cfg runAs s w) as (delta & Ht & Hc & Hf).
  assert (He : forall c, In (EvPtyStart c) delta ->
       Env c = w_environ w ++ [termEnvVariable; homeEnvVariable cfg]
               ++ (if list_eq_dec Z.eq_dec (Getenv langEnvVariableKey (w_environ w)) []
                   then [langEnvVariable] else [])).
  { intros c Hin. destruct (Hc c Hin) as (_ & _ & ->). unfold startpty_base_cmd.
    destruct (list_eq_dec Z.eq_dec (Getenv langEnvVariableKey (w_environ w)) []);
      cbn [Env set_Env]; rewrite ?app_nil_r, <- ?app_assoc; reflexivity. }
  exists delta. split; [exact Ht|]. split; [exact He|]. split.
  - intros Hl c Hin. rewrite (He c Hin).
    destruct (list_eq_dec Z.eq_dec (Getenv langEnvVariableKey (w_environ w)) []);
      [contradiction|]. rewrite app_nil_r. reflexivity.
  - intros H. exists (startpty_base_cmd cfg s w). exact (Hf H).
Qed.

(** C3: with [runAsSsmUser], a resolver error is returned as is with nil
    handles, and neither [pty.Start] runs nor [ptyFile] or the open files
    change; a resolved credential is attached to the started command with
    [NoSetGroups] false, so the child's supplementary groups are exactly the
    resolved list. *)
Theorem StartPty_credentials cfg s w :
  (forall u g gs e w',
     getUserCredentials cfg (with_event w EvCreateLocalAdminUser) = (Done (u, g, gs, Some e), w') ->
     StartPty cfg true s w = (Done (None, None, Some e), w') /\
     w_ptyFile w' = w_ptyFile w /\ w_files w' = w_files w /\
     exists delta, w_trace w' = delta ++ w_trace w /\ forall c, ~ In (EvPtyStart c) delta) /\
  (forall u g gs w',
     getUserCredentials cfg (with_event w EvCreateLocalAdminUser) = (Done (u, g, gs, None), w') ->
     exists c, w_trace (snd (StartPty cfg true s w)) = EvPtyStart c :: w_trace w' /\
       SysProcAttrCredential c = Some {| Uid := u; Gid := g; Groups := gs; NoSetGroups := false |} /\
       forall parent, child_groups parent c = gs).
Proof.
  destruct (getUserCredentials_world cfg (with_event w EvCreateLocalAdminUser))
    as (es & Hes & Hw).
  split.
  - intros u g gs e w' G. rewrite G in Hw. cbn [snd] in Hw. subst w'.
    rewrite StartPty_cases, G. split; [reflexivity|].
    rewrite push_ptyFile, push_files. split; [reflexivity|]. split; [reflexivity|].
    exists (rev es ++ [EvCreateLocalAdminUser]). rewrite push_trace. split.
    + cbn. rewrite <- app_assoc. reflexivity.
    + intros c Hin. exact (not_in_exec_events c es EvCreateLocalAdminUser Hes ltac:(discriminate) Hin).
  - intros u g gs w' G. rewrite StartPty_cases, G, pty_start_tail_run.
    exists (set_Credential (startpty_base_cmd cfg s w)
              {| Uid := u; Gid := g; Groups := gs; NoSetGroups := false |}).
    split; [|split; [reflexivity|intros parent; reflexivity]].
    destruct (w_pty_start w' _); reflexivity.
Qed.

(** The scripted input of [generateLogData], in the order it happens. *)
Lemma generateLogData_run cfg p w fd :
  w_pty_start w (startpty_base_cmd cfg [] w) = Some fd ->
  fst (generateLogData cfg p w) = Done None /\
  w_trace (snd (generateLogData cfg p w)) =
    rev (generateLogData_script cfg p fd)
    ++ w_trace (snd (StartPty cfg false [] w)).
Proof.
  intros P.
  set (fo := {| fo_fd := fd; fo_closed := false |}).
  set (id := List.length (w_files w)).
  set (w1 := with_ptyFile (with_files (with_event w (EvPtyStart (startpty_base_cmd cfg [] w)))
                             (w_files w ++ [fo])) (Some id)).
  assert (HS : StartPty cfg false [] w = (Done (Some id, Some id, None), w1)).
  { rewrite StartPty_cases, pty_start_tail_run, P. reflexivity. }
  assert (Hn : nth_error (w_files w1) id = Some {| fo_fd := fd; fo_closed := false |}).
  { cbn [w1 w_files with_ptyFile with_files]. unfold id.
    rewrite nth_error_app2, Nat.sub_diag by lia. reflexivity. }
  unfold generateLogData, defer_recover_Stop; unfold_monad.
  rewrite HS.
  repeat (cbn [w_files with_event fo_closed fo_fd]; rewrite Hn; cbv beta iota zeta).
  split; reflexivity.
Qed.

(** C6: if the disposable session fails to start, its error is returned and
    nothing else is done; once it has started, the whole script is written
    in order, the pty input is closed and nil is returned (the results of
    the writes are not consulted). *)
Theorem generateLogData_contract cfg p w :
  (forall i o e, fst (StartPty cfg false [] w) = Done (i, o, Some e) ->
     generateLogData cfg p w = (Done (Some e), snd (StartPty cfg false [] w))) /\
  (forall i o, fst (StartPty cfg false [] w) = Done (i, o, None) ->
     exists fd, w_pty_start w (startpty_base_cmd cfg [] w) = Some fd /\
       fst (generateLogData cfg p w) = Done None /\
       w_trace (snd (generateLogData cfg p w)) =
         rev (generateLogData_script cfg p fd) ++ w_trace (snd (StartPty cfg false [] w))).
Proof.
  split.
  - intros i o e H. unfold generateLogData, bind at 1.
    destruct (StartPty cfg false [] w) as [r w'] eqn:E. cbn [fst] in H. subst r.
    reflexivity.
  - intros i o H.
    rewrite StartPty_cases, pty_start_tail_run in H.
    destruct (w_pty_start w (startpty_base_cmd cfg [] w)) as [fd|] eqn:P;
      [|discriminate H].
    exists fd. split; [reflexivity|]. exact (generateLogData_run cfg p w fd P).
Qed.

(** C7: with no open session ([ptyFile] nil, or its file closed) [SetSize]
    returns the resize error (EBADF from the ioctl on descriptor -1), and a
    [StartPty] that fails leaves a nil [ptyFile] nil. *)
Theorem SetSize_without_session :
  (forall w cols rows,
     (w_ptyFile w = None \/
      exists id fo, w_ptyFile w = Some id /\ nth_error (w_files w) id = Some fo /\ fo_closed fo = true) ->
     fst (SetSize cols rows w) = Done (Some (ErrSetSize EBADF))) /\
  (forall cfg runAs s w i o e,
     w_ptyFile w = None ->
     fst (StartPty cfg runAs s w) = Done (i, o, Some e) ->
     w_ptyFile (snd (StartPty cfg runAs s w)) = None).
Proof.
  split.
  - intros w cols rows [Hn | (id & fo & Hid & Hfo & Hc)];
      unfold SetSize; unfold_monad.
    + rewrite Hn. reflexivity.
    + rewrite Hid. cbv beta iota. rewrite Hfo, Hc. reflexivity.
  - intros cfg runAs s w i o e Hn H.
    rewrite StartPty_cases in *. destruct runAs.
    + destruct (getUserCredentials_world cfg (with_event w EvCreateLocalAdminUser))
        as (es & _ & Hw).
      destruct (getUserCredentials cfg (with_event w EvCreateLocalAdminUser))
        as [[[[[u g] gs] [e'|]]|m] w'] eqn:G; cbn [snd] in Hw; subst w'.
      * cbn [snd]. rewrite push_ptyFile. exact Hn.
      * rewrite pty_start_tail_run in *.
        destruct (w_pty_start _ _); [discriminate H|reflexivity].
      * discriminate H.
    + rewrite pty_start_tail_run in *.
      destruct (w_pty_start _ _); [discriminate H|reflexivity].
Qed.

(** C8: [Stop] on an open [ptyFile] closes its descriptor and does nothing
    else (no signal, no wait); on an already closed one it returns the close
    error and changes nothing. *)
Theorem Stop_closes_or_fails w id fo :
  w_ptyFile w = Some id -> nth_error (w_files w) id = Some fo ->
  (fo_closed fo = false ->
     Stop w = (Done None,
               with_event (with_files w (list_set (w_files w) id
                                          {| fo_fd := fo_fd fo; fo_closed := true |}))
                          (EvClose (fo_fd fo)))) /\
  (fo_closed fo = true -> Stop w = (Done (Some (ErrCloseFile ErrClosed)), w)).
Proof.
  intros Hid Hfo. unfold Stop; unfold_monad. rewrite Hid. cbv beta iota. rewrite Hfo.
  split; intros Hc; rewrite Hc; reflexivity.
Qed.

(** C9 (as the code does it): with an open session, [SetSize] issues one
    TIOCSWINSZ ioctl on the master with each value truncated to 16 bits by
    the [uint16] conversion, and returns the ioctl's error as the resize
    error; values below 65536 pass unchanged. *)
Theorem SetSize_applies_uint16 w cols rows id fo :
  w_ptyFile w = Some id -> nth_error (w_files w) id = Some fo -> fo_closed fo = false ->
  0 <= fo_fd fo ->
  SetSize cols rows w =
    (Done (match w_ioctl w (fo_fd fo) (cols mod 2 ^ 16, rows mod 2 ^ 16) with
           | Some errno => Some (ErrSetSize errno)
           | None => None
           end),
     with_event w (EvIoctlSetWinsize (fo_fd fo) (cols mod 2 ^ 16) (rows mod 2 ^ 16))) /\
  (0 <= cols < 2 ^ 16 -> 0 <= rows < 2 ^ 16 ->
     to_uint16 cols = cols /\ to_uint16 rows = rows).
Proof.
  intros Hid Hfo Hc Hfd. split.
  - unfold SetSize, to_uint16; unfold_monad. rewrite Hid. cbv beta iota. rewrite Hfo, Hc.
    replace (fo_fd fo <? 0) with false by (symmetry; apply Z.ltb_ge; lia).
    destruct (w_ioctl w (fo_fd fo) _); reflexivity.
  - intros Hcl Hrw. unfold to_uint16. split; apply Z.mod_small; lia.
Qed.

(** C9 fails as stated: with an open session on descriptor 5,
    [SetSize(70000, 24)] applies 4464 columns, not 70000. *)
Lemma SetSize_not_exact :
  ~ (forall cols rows, 0 <= cols < 2 ^ 32 -> 0 <= rows < 2 ^ 32 ->
       w_trace (snd (SetSize cols rows open_world))
       = [EvIoctlSetWinsize 5 cols rows]).
Proof.
  intros H. specialize (H 70000 24 ltac:(lia) ltac:(lia)).
  vm_compute in H. discriminate H.
Qed.

(** ** Witnesses *)

Lemma getUserCredentials_rejects_nonpositive_witness :
  fst (getUserCredentials sample_cfg root_world) = Done (0, 0, [], Some ErrInvalidUidGid).
Proof.
  apply (proj2 (getUserCredentials_rejects_nonpositive sample_cfg root_world)
           (s2r "0
") 0 (s2r "0
") 0 groups_out); try reflexivity.
  - apply Forall_forall. intros x Hx. vm_compute in Hx.
    destruct Hx as [<-|[<-|[]]]; (do 3 eexists; split; [reflexivity|split; reflexivity]).
  - left; lia.
Defined.

Lemma group_names_skip_first_two_witness :
  exists k, (k <= List.length (skipn 2 (Split groups_out 32)))%nat /\
    w_trace (snd (getUserCredentials sample_cfg test_world)) =
      rev (map (fun name => EvExec (Args (group_query sample_cfg name)))
                 (firstn k (skipn 2 (Split groups_out 32))))
      ++ [EvExec (Args (groups_query sample_cfg)); EvExec (Args (gid_query sample_cfg));
          EvExec (Args (uid_query sample_cfg))] ++ w_trace test_world /\
    (Forall (group_ok sample_cfg (w_exec test_world)) (skipn 2 (Split groups_out 32)) ->
       k = List.length (skipn 2 (Split groups_out 32))).
Proof.
  apply (group_names_skip_first_two sample_cfg test_world (s2r "1001
") 1001 (s2r "1001
") 1001 groups_out); reflexivity.
Defined.

Lemma group_id_field_unchecked_witness :
  fst (getUserCredentials sample_cfg badgroup_world)
  = Panicked (s2r "runtime error: index out of range").
Proof.
  apply (proj2 (group_id_field_unchecked sample_cfg badgroup_world (s2r "1001
") 1001
           (s2r "1001
") 1001 groups_out 1 (s2r "test
") (s2r "test
")
           eq_refl eq_refl eq_refl eq_refl eq_refl eq_refl
           ltac:(apply Forall_forall; intros x Hx; vm_compute in Hx;
                 destruct Hx as [<-|[]]; do 3 eexists; split; [reflexivity|split; reflexivity])
           eq_refl)).
  vm_compute. lia.
Defined.

Lemma StartPty_credentials_witness :
  fst (StartPty sample_cfg true [] nouser_world)
  = Done (None, None, Some (ErrCmdOutput (Args (uid_query sample_cfg)))).
Proof.
  refine (f_equal fst (proj1 (proj1 (StartPty_credentials sample_cfg [] nouser_world)
            0 0 [] (ErrCmdOutput (Args (uid_query sample_cfg))) _ _))).
  reflexivity.
Defined.

Lemma generateLogData_contract_witness :
  exists fd, w_pty_start test_world (startpty_base_cmd sample_cfg [] test_world) = Some fd /\
    fst (generateLogData sample_cfg sample_plugin test_world) = Done None /\
    w_trace (snd (generateLogData sample_cfg sample_plugin test_world)) =
      rev (generateLogData_script sample_cfg sample_plugin fd)
      ++ w_trace (snd (StartPty sample_cfg false [] test_world)).
Proof.
  exact (proj2 (generateLogData_contract sample_cfg sample_plugin test_world)
           (Some 0%nat) (Some 0%nat) eq_refl).
Defined.

Lemma SetSize_without_session_witness :
  fst (SetSize 80 24 test_world) = Done (Some (ErrSetSize EBADF)).
Proof. apply (proj1 SetSize_without_session). left. reflexivity. Defined.

Lemma Stop_closes_or_fails_witness :
  fst (Stop open_world) = Done None /\
  fst (Stop (snd (Stop open_world))) = Done (Some (ErrCloseFile ErrClosed)).
Proof.
  split.
  - rewrite (proj1 (Stop_closes_or_fails open_world 0 {| fo_fd := 5; fo_closed := false |}
                     eq_refl eq_refl) eq_refl).
    reflexivity.
  - rewrite (proj2 (Stop_closes_or_fails (snd (Stop open_world)) 0
                     {| fo_fd := 5; fo_closed := true |} eq_refl eq_refl) eq_refl).
    reflexivity.
Defined.

Lemma SetSize_applies_uint16_witness :
  w_trace (snd (SetSize 70000 24 open_world)) = [EvIoctlSetWinsize 5 4464 24].
Proof.
  rewrite (proj1 (SetSize_applies_uint16 open_world 70000 24 0
                    {| fo_fd := 5; fo_closed := false |} eq_refl eq_refl eq_refl
                    ltac:(cbn; lia))).
  reflexivity.
Defined.

(** ** Further properties of shell_unix.go *)

Lemma nth_error_list_set {A} (l : list A) i x :
  (i < List.length l)%nat -> nth_error (list_set l i x) i = Some x.
Proof.
  revert i; induction l as [|y l IH]; intros i Hi; simpl in *; [lia|].
  destruct i; simpl; [reflexivity|]. apply IH; lia.
Qed.

Lemma length_list_set {A} (l : list A) i x :
  List.length (list_set l i x) = List.length l.
Proof.
  revert i; induction l as [|y l IH]; intros i; simpl; [reflexivity|].
  destruct i; simpl; [reflexivity|]. rewrite IH; reflexivity.
Qed.

Lemma nth_error_list_set_other {A} (l : list A) i j x :
  i <> j -> nth_error (list_set l i x) j = nth_error l j.
Proof.
  revert i j; induction l as [|y l IH]; intros i j Hij; simpl; [reflexivity|].
  destruct i, j; simpl; try reflexivity; [congruence|]. apply IH; congruence.
Qed.

(** A successful run of the group loop has queried every remaining name and
    collected one [uint32] id per name. *)
Lemma group_ids_loop_inl cfg names : forall fuel i acc w r w',
  fuel = (List.length names - i)%nat ->
  group_ids_loop cfg names i fuel acc w = (Done (inl r), w') ->
  exists ids, r = acc ++ ids /\ List.length ids = List.length (skipn i names) /\
    Forall (fun x => 0 <= x < 2 ^ 32) ids /\
    w' = push w (map (group_query_event cfg) (skipn i names)).
Proof.
  induction fuel as [|f IH]; intros i acc w r w' Hf H.
  - rewrite skipn_length_ge by lia. cbn in H. injection H as <- <-.
    exists []. rewrite app_nil_r. repeat split; constructor.
  - assert (Hi : (i < List.length names)%nat) by lia.
    rewrite (skipn_nth_cons names i [] Hi).
    set (n := nth i names []) in *.
    cbn [group_ids_loop] in H. fold n in H. unfold_monad.
    destruct (w_exec w (Args (group_query cfg n))) as [o|]; [|discriminate H].
    destruct (nth_error (Split o 58) 2) as [fld|]; [|discriminate H].
    destruct (Atoi (TrimSpace fld)) as [g|]; [|discriminate H].
    destruct (IH (S i) _ _ _ _ ltac:(lia) H) as (ids & -> & Hl & Hr & ->).
    exists (to_uint32 g :: ids). split; [rewrite <- app_assoc; reflexivity|].
    split; [cbn [List.length]; rewrite Hl; reflexivity|].
    split; [constructor; [unfold to_uint32; apply Z.mod_pos_bound; lia|exact Hr]|].
    reflexivity.
Qed.

(** [getUserCredentials] either fails early at one of its first three
    queries, or runs its group loop. *)
Lemma getUserCredentials_cases cfg w :
  (exists e es, getUserCredentials cfg w = (Done (0, 0, [], Some e), push w es)) \/
  (exists ou uid og gid ogr,
     w_exec w (Args (uid_query cfg)) = Some ou /\ Atoi (TrimSpace ou) = Some uid /\
     w_exec w (Args (gid_query cfg)) = Some og /\ Atoi (TrimSpace og) = Some gid /\
     w_exec w (Args (groups_query cfg)) = Some ogr /\
     getUserCredentials cfg w =
       finish_credentials uid gid
         (group_ids_loop cfg (Split ogr 32) 2 (List.length (Split ogr 32) - 2) []
            (push w [EvExec (Args (uid_query cfg)); EvExec (Args (gid_query cfg));
                     EvExec (Args (groups_query cfg))]))).
Proof.
  destruct (w_exec w (Args (uid_query cfg))) as [ou|] eqn:E1;
    [|left; unfold getUserCredentials; unfold_monad; cbn [w_exec with_event]; rewrite E1;
      do 2 eexists; instantiate (1 := [_]); reflexivity].
  destruct (Atoi (TrimSpace ou)) as [uid|] eqn:A1;
    [|left; unfold getUserCredentials; unfold_monad; cbn [w_exec with_event]; rewrite E1, A1;
      do 2 eexists; instantiate (1 := [_]); reflexivity].
  destruct (w_exec w (Args (gid_query cfg))) as [og|] eqn:E2;
    [|left; unfold getUserCredentials; unfold_monad; cbn [w_exec with_event]; rewrite E1, A1;
      cbn [w_exec with_event]; rewrite E2; do 2 eexists; instantiate (1 := [_; _]); reflexivity].
  destruct (Atoi (TrimSpace og)) as [gid|] eqn:A2;
    [|left; unfold getUserCredentials; unfold_monad; cbn [w_exec with_event]; rewrite E1, A1;
      cbn [w_exec with_event]; rewrite E2, A2; do 2 eexists; instantiate (1 := [_; _]); reflexivity].
  destruct (w_exec w (Args (groups_query cfg))) as [ogr|] eqn:E3;
    [|left; unfold getUserCredentials; unfold_monad; cbn [w_exec with_event]; rewrite E1, A1;
      cbn [w_exec with_event]; rewrite E2, A2; cbn [w_exec with_event]; rewrite E3;
      do 2 eexists; instantiate (1 := [_; _; _]); reflexivity].
  right. exists ou, uid, og, gid, ogr. repeat split; try assumption.
  exact (getUserCredentials_after_queries cfg w ou uid og gid ogr E1 A1 E2 A2 E3).
Qed.

(** X1: every error [getUserCredentials] returns comes with uid 0, gid 0
    and no groups. *)
Theorem getUserCredentials_error_zero cfg w u g gs e :
  fst (getUserCredentials cfg w) = Done (u, g, gs, Some e) -> u = 0 /\ g = 0 /\ gs = [].
Proof.
  intros H. destruct (getUserCredentials_cases cfg w) as [(e' & es & Hc)|(ou & uid & og & gid & ogr & _ & _ & _ & _ & _ & Hc)];
    rewrite Hc in H.
  - cbn in H. injection H as <- <- <-. auto.
  - unfold finish_credentials in H.
    destruct (group_ids_loop _ _ _ _ _ _) as [[[ids|e']|m] w'];
      [destruct ((0 <? uid) && (0 <? gid))|..]; cbn in H; try discriminate H;
      injection H as <- <- <-; auto.
Qed.

(** X2: a successful resolution has queried the group database once for
    every membership token from the third on, in order, and returns one
    group id per such token; the uid, gid and every group id are in the
    [uint32] range. *)
Theorem getUserCredentials_success_groups cfg w u g gs :
  fst (getUserCredentials cfg w) = Done (u, g, gs, None) ->
  exists ogr, w_exec w (Args (groups_query cfg)) = Some ogr /\
    List.length gs = List.length (skipn 2 (Split ogr 32)) /\
    Forall (fun x => 0 <= x < 2 ^ 32) gs /\ 0 <= u < 2 ^ 32 /\ 0 <= g < 2 ^ 32 /\
    w_trace (snd (getUserCredentials cfg w)) =
      rev (map (fun name => EvExec (Args (group_query cfg name))) (skipn 2 (Split ogr 32)))
      ++ [EvExec (Args (groups_query cfg)); EvExec (Args (gid_query cfg));
          EvExec (Args (uid_query cfg))] ++ w_trace w.
Proof.
  intros H. destruct (getUserCredentials_cases cfg w) as [(e' & es & Hc)|(ou & uid & og & gid & ogr & _ & _ & _ & _ & E3 & Hc)];
    rewrite Hc in *; [discriminate H|].
  exists ogr. split; [exact E3|].
  unfold finish_credentials in *.
  destruct (group_ids_loop _ _ _ _ _ _) as [[[ids|e']|m] w'] eqn:L; try discriminate H.
  destruct ((0 <? uid) && (0 <? gid)); cbn in H; [|discriminate H].
  injection H as <- <- <-.
  destruct (group_ids_loop_inl cfg _ _ _ _ _ _ _ eq_refl L) as (ids' & -> & Hl & Hr & ->).
  split; [exact Hl|]. split; [exact Hr|].
  split; [unfold to_uint32; apply Z.mod_pos_bound; lia|].
  split; [unfold to_uint32; apply Z.mod_pos_bound; lia|].
  cbn [snd]. rewrite !push_trace. reflexivity.
Qed.

(** [StartPty]'s final state and result, by whether it reached [pty.Start]. *)
Lemma StartPty_outcome cfg runAs s w :
  (exists e w', StartPty cfg runAs s w = (Done (None, None, Some e), w') /\
     w_ptyFile w' = w_ptyFile w /\ w_files w' = w_files w /\
     exists delta, w_trace w' = delta ++ w_trace w /\ forall c, ~ In (EvPtyStart c) delta) \/
  (exists m w', StartPty cfg runAs s w = (Panicked m, w')) \/
  (exists c w', w_pty_start w' = w_pty_start w /\ w_files w' = w_files w /\
     StartPty cfg runAs s w = pty_start_tail c w').
Proof.
  rewrite StartPty_cases. destruct runAs.
  - destruct (getUserCredentials_world cfg (with_event w EvCreateLocalAdminUser))
      as (es & Hes & Hw).
    destruct (getUserCredentials cfg (with_event w EvCreateLocalAdminUser))
      as [[[[[u g] gs] [e|]]|m] w'] eqn:G; cbn [snd] in Hw; subst w'.
    + left. exists e, (push (with_event w EvCreateLocalAdminUser) es).
      split; [reflexivity|]. rewrite push_ptyFile, push_files.
      split; [reflexivity|]. split; [reflexivity|].
      exists (rev es ++ [EvCreateLocalAdminUser]). rewrite push_trace. split.
      * cbn. rewrite <- app_assoc. reflexivity.
      * intros c Hin.
        exact (not_in_exec_events c es EvCreateLocalAdminUser Hes ltac:(discriminate) Hin).
    + right; right. eexists _, (push (with_event w EvCreateLocalAdminUser) es).
      rewrite push_pty_start, push_files. split; [reflexivity|]. split; reflexivity.
    + right; left. eexists _, _. reflexivity.
  - right; right. exists (startpty_base_cmd cfg s w), w. split; [reflexivity|]. split; reflexivity.
Qed.

(** X3: a successful [StartPty] returns one new handle as both stdin and
    stdout, records it in [ptyFile], and opens it on the master descriptor
    from [pty.Start]; the files opened before keep their state, so a session
    that was active is not closed. *)
Theorem StartPty_success_handle cfg runAs s w i o :
  fst (StartPty cfg runAs s w) = Done (i, o, None) ->
  exists fd, i = Some (List.length (w_files w)) /\ o = i /\
    w_ptyFile (snd (StartPty cfg runAs s w)) = i /\
    w_files (snd (StartPty cfg runAs s w)) = w_files w ++ [{| fo_fd := fd; fo_closed := false |}].
Proof.
  intros H.
  destruct (StartPty_outcome cfg runAs s w) as [(e & w' & Hc & _)|[(m & w' & Hc)|(c & w' & Hp & Hf & Hc)]];
    rewrite Hc in *; [discriminate H|discriminate H|].
  rewrite pty_start_tail_run in *. rewrite Hp in *.
  destruct (w_pty_start w c) as [fd|]; [|discriminate H].
  cbn in H. injection H as <- <-. exists fd. rewrite Hf. repeat split; reflexivity.
Qed.

(** X4: a failing [StartPty] opens no file; either it stopped before
    [pty.Start] (no pty start was attempted) and [ptyFile] is as it was, or
    [pty.Start] was attempted and failed, the error is the pty start error
    and [ptyFile] is reset to nil, so a session that was tracked is dropped
    without being closed and [Stop] then fails. *)
Theorem StartPty_failure_state cfg runAs s w i o e :
  fst (StartPty cfg runAs s w) = Done (i, o, Some e) ->
  i = None /\ o = None /\ w_files (snd (StartPty cfg runAs s w)) = w_files w /\
  ((w_ptyFile (snd (StartPty cfg runAs s w)) = w_ptyFile w /\
    exists delta, w_trace (snd (StartPty cfg runAs s w)) = delta ++ w_trace w /\
      forall c, ~ In (EvPtyStart c) delta) \/
   (e = ErrStartPty /\
    (exists c rest, w_trace (snd (StartPty cfg runAs s w)) = EvPtyStart c :: rest /\
       w_pty_start w c = None) /\
    w_ptyFile (snd (StartPty cfg runAs s w)) = None /\
    fst (Stop (snd (StartPty cfg runAs s w))) = Done (Some (ErrCloseFile ErrInvalid)))).
Proof.
  intros H.
  destruct (StartPty_outcome cfg runAs s w) as [(e' & w' & Hc & Hp & Hf & Hd)|[(m & w' & Hc)|(c & w' & Hp & Hf & Hc)]];
    rewrite Hc in *; [|discriminate H|].
  - cbn in H. injection H as <- <- <-. cbn [snd].
    split; [reflexivity|]. split; [reflexivity|]. split; [exact Hf|].
    left. split; [exact Hp|exact Hd].
  - rewrite pty_start_tail_run in *. rewrite Hp in *.
    destruct (w_pty_start w c) eqn:Pc; [discriminate H|].
    cbn in H. injection H as <- <- <-. cbn [snd w_files w_ptyFile w_trace with_ptyFile with_event].
    split; [reflexivity|]. split; [reflexivity|]. split; [exact Hf|].
    right. split; [reflexivity|]. split; [exists c, (w_trace w'); split; [reflexivity|exact Pc]|].
    split; reflexivity.
Qed.

Lemma Stop_on_open w id fo :
  w_ptyFile w = Some id -> nth_error (w_files w) id = Some fo -> fo_closed fo = false ->
  Stop w = (Done None,
            with_event (with_files w (list_set (w_files w) id
                                       {| fo_fd := fo_fd fo; fo_closed := true |}))
                       (EvClose (fo_fd fo))).
Proof.
  intros Hid Hfo Hc. unfold Stop; unfold_monad. rewrite Hid. cbv beta iota.
  rewrite Hfo, Hc. reflexivity.
Qed.

Lemma Stop_on_closed w id fo :
  w_ptyFile w = Some id -> nth_error (w_files w) id = Some fo -> fo_closed fo = true ->
  Stop w = (Done (Some (ErrCloseFile ErrClosed)), w).
Proof.
  intros Hid Hfo Hc. unfold Stop; unfold_monad. rewrite Hid. cbv beta iota.
  rewrite Hfo, Hc. reflexivity.
Qed.

Lemma SetSize_on_open w cols rows id fo :
  w_ptyFile w = Some id -> nth_error (w_files w) id = Some fo -> fo_closed fo = false ->
  0 <= fo_fd fo ->
  SetSize cols rows w =
    (Done (match w_ioctl w (fo_fd fo) (to_uint16 cols, to_uint16 rows) with
           | Some errno => Some (ErrSetSize errno)
           | None => None
           end),
     with_event w (EvIoctlSetWinsize (fo_fd fo) (to_uint16 cols) (to_uint16 rows))).
Proof.
  intros Hid Hfo Hc Hfd. unfold SetSize; unfold_monad. rewrite Hid. cbv beta iota.
  rewrite Hfo, Hc.
  replace (fo_fd fo <? 0) with false by (symmetry; apply Z.ltb_ge; lia).
  destruct (w_ioctl w (fo_fd fo) _); reflexivity.
Qed.

Lemma SetSize_on_closed w cols rows id fo :
  w_ptyFile w = Some id -> nth_error (w_files w) id = Some fo -> fo_closed fo = true ->
  fst (SetSize cols rows w) = Done (Some (ErrSetSize EBADF)).
Proof.
  intros Hid Hfo Hc. unfold SetSize; unfold_monad. rewrite Hid. cbv beta iota.
  rewrite Hfo, Hc. reflexivity.
Qed.

(** X5: on a host where [pty.Start] and the resize succeed, Start(false, "")
    then SetSize then Stop all return nil, with exactly the pty start, one
    resize ioctl and one close as effects; afterwards a second Stop fails
    with the close error and SetSize with the resize error. *)
Theorem session_lifecycle cfg w fd cols rows :
  w_pty_start w (startpty_base_cmd cfg [] w) = Some fd -> 0 <= fd ->
  w_ioctl w fd (to_uint16 cols, to_uint16 rows) = None ->
  fst (StartPty cfg false [] w)
    = Done (Some (List.length (w_files w)), Some (List.length (w_files w)), None) /\
  fst (SetSize cols rows (snd (StartPty cfg false [] w))) = Done None /\
  fst (Stop (snd (SetSize cols rows (snd (StartPty cfg false [] w))))) = Done None /\
  w_trace (snd (Stop (snd (SetSize cols rows (snd (StartPty cfg false [] w))))))
    = [EvClose fd; EvIoctlSetWinsize fd (to_uint16 cols) (to_uint16 rows);
       EvPtyStart (startpty_base_cmd cfg [] w)] ++ w_trace w /\
  fst (Stop (snd (Stop (snd (SetSize cols rows (snd (StartPty cfg false [] w)))))))
    = Done (Some (ErrCloseFile ErrClosed)) /\
  fst (SetSize cols rows (snd (Stop (snd (SetSize cols rows (snd (StartPty cfg false [] w)))))))
    = Done (Some (ErrSetSize EBADF)).
Proof.
  intros P Hfd Hio.
  set (n := List.length (w_files w)).
  set (fo := {| fo_fd := fd; fo_closed := false |}).
  set (w1 := with_ptyFile (with_files (with_event w (EvPtyStart (startpty_base_cmd cfg [] w)))
                             (w_files w ++ [fo])) (Some n)).
  assert (HS : StartPty cfg false [] w = (Done (Some n, Some n, None), w1)).
  { rewrite StartPty_cases, pty_start_tail_run, P. reflexivity. }
  assert (Hn1 : nth_error (w_files w1) n = Some fo).
  { cbn [w1 w_files with_ptyFile with_files]. unfold n.
    rewrite nth_error_app2, Nat.sub_diag by lia. reflexivity. }
  assert (Hlen : (n < List.length (w_files w1))%nat).
  { cbn [w1 w_files with_ptyFile with_files]. rewrite length_app. cbn. unfold n. lia. }
  rewrite HS. cbn [fst snd].
  rewrite (SetSize_on_open w1 cols rows n fo eq_refl Hn1 eq_refl Hfd).
  change (w_ioctl w1) with (w_ioctl w). change (fo_fd fo) with fd. rewrite Hio.
  set (w2 := with_event w1 (EvIoctlSetWinsize fd (to_uint16 cols) (to_uint16 rows))).
  cbn [fst snd]. rewrite (Stop_on_open w2 n fo eq_refl Hn1 eq_refl). cbn [fst snd fo_fd fo].
  set (w3 := with_event (with_files w2 (list_set (w_files w2) n {| fo_fd := fd; fo_closed := true |}))
               (EvClose fd)).
  assert (Hn3 : nth_error (w_files w3) n = Some {| fo_fd := fd; fo_closed := true |}).
  { cbn [w3 w_files with_event with_files]. apply nth_error_list_set. exact Hlen. }
  split; [reflexivity|]. split; [reflexivity|]. split; [reflexivity|].
  split; [reflexivity|].
  split.
  - rewrite (Stop_on_closed w3 n _ eq_refl Hn3 eq_refl). reflexivity.
  - exact (SetSize_on_closed w3 cols rows n _ eq_refl Hn3 eq_refl).
Qed.

(** The state [generateLogData] leaves when its session started: [ptyFile]
    is the shadow session's file, now closed. *)
Lemma generateLogData_final_state cfg p w fd :
  w_pty_start w (startpty_base_cmd cfg [] w) = Some fd ->
  w_ptyFile (snd (generateLogData cfg p w)) = Some (List.length (w_files w)) /\
  nth_error (w_files (snd (generateLogData cfg p w))) (List.length (w_files w))
    = Some {| fo_fd := fd; fo_closed := true |}.
Proof.
  intros P.
  set (fo := {| fo_fd := fd; fo_closed := false |}).
  set (id := List.length (w_files w)).
  set (w1 := with_ptyFile (with_files (with_event w (EvPtyStart (startpty_base_cmd cfg [] w)))
                             (w_files w ++ [fo])) (Some id)).
  assert (HS : StartPty cfg false [] w = (Done (Some id, Some id, None), w1)).
  { rewrite StartPty_cases, pty_start_tail_run, P. reflexivity. }
  assert (Hn : nth_error (w_files w1) id = Some {| fo_fd := fd; fo_closed := false |}).
  { cbn [w1 w_files with_ptyFile with_files]. unfold id.
    rewrite nth_error_app2, Nat.sub_diag by lia. reflexivity. }
  assert (Hlen : (id < List.length (w_files w1))%nat).
  { cbn [w1 w_files with_ptyFile with_files]. rewrite length_app. cbn. unfold id. lia. }
  unfold generateLogData, defer_recover_Stop; unfold_monad.
  rewrite HS.
  repeat (cbn [w_files with_event fo_closed fo_fd]; rewrite Hn; cbv beta iota zeta).
  cbn [snd w_ptyFile w_files with_event with_files].
  split; [reflexivity|]. apply nth_error_list_set. exact Hlen.
Qed.

(** X6: [generateLogData] never panics, never creates the restricted user
    or runs an identity query, and the one command it starts on a pty is
    [sh] with no arguments and no credential, so the shadow session runs as
    the agent itself. *)
Theorem generateLogData_own_identity cfg p w :
  exists r delta, fst (generateLogData cfg p w) = Done r /\
    w_trace (snd (generateLogData cfg p w)) = delta ++ w_trace w /\
    forall e, In e delta ->
      match e with
      | EvExec _ | EvCreateLocalAdminUser => False
      | EvPtyStart c => Args c = [s2r "sh"] /\ SysProcAttrCredential c = None
      | _ => True
      end.
Proof.
  set (c := startpty_base_cmd cfg [] w).
  assert (Hc : Args c = [s2r "sh"] /\ SysProcAttrCredential c = None).
  { unfold c, startpty_base_cmd.
    destruct (list_eq_dec Z.eq_dec (Getenv langEnvVariableKey (w_environ w)) []);
      split; reflexivity. }
  destruct (w_pty_start w c) as [fd|] eqn:P.
  - destruct (generateLogData_run cfg p w fd P) as [Hr Ht].
    exists None, (rev (generateLogData_script cfg p fd) ++ [EvPtyStart c]).
    split; [exact Hr|]. split.
    + rewrite Ht, StartPty_cases, pty_start_tail_run. fold c. rewrite P.
      cbn [snd w_trace with_ptyFile with_files with_event]. rewrite <- app_assoc. reflexivity.
    + intros e Hin. apply in_app_or in Hin as [Hin|[<-|[]]]; [|exact Hc].
      apply in_rev in Hin. unfold generateLogData_script in Hin.
      repeat (destruct Hin as [<-|Hin]; [exact I|]). destruct Hin.
  - assert (HS : StartPty cfg false [] w
                 = (Done (None, None, Some ErrStartPty), with_ptyFile (with_event w (EvPtyStart c)) None)).
    { rewrite StartPty_cases, pty_start_tail_run. fold c. rewrite P. reflexivity. }
    exists (Some ErrStartPty), [EvPtyStart c].
    unfold generateLogData; unfold_monad. rewrite HS.
    split; [reflexivity|]. split; [reflexivity|].
    intros e [<-|[]]. exact Hc.
Qed.

(** X7: after [generateLogData] has run its script, the package [ptyFile]
    is the closed shadow session, whatever session was tracked before: a
    later [Stop] fails with the close error and [SetSize] with the resize
    error. *)
Theorem generateLogData_clobbers_ptyFile cfg p w fd cols rows :
  w_pty_start w (startpty_base_cmd cfg [] w) = Some fd ->
  w_ptyFile (snd (generateLogData cfg p w)) = Some (List.length (w_files w)) /\
  fst (Stop (snd (generateLogData cfg p w))) = Done (Some (ErrCloseFile ErrClosed)) /\
  fst (SetSize cols rows (snd (generateLogData cfg p w))) = Done (Some (ErrSetSize EBADF)).
Proof.
  intros P. destruct (generateLogData_final_state cfg p w fd P) as [Hp Hn].
  split; [exact Hp|]. split.
  - rewrite (Stop_on_closed _ _ _ Hp Hn eq_refl). reflexivity.
  - exact (SetSize_on_closed _ cols rows _ _ Hp Hn eq_refl).
Qed.

(** X8: once its session has started, [generateLogData] sleeps eight times
    for 130 seconds in all; if
    the start fails it does not sleep. *)
Theorem generateLogData_sleeps cfg p w :
  (forall fd, w_pty_start w (startpty_base_cmd cfg [] w) = Some fd ->
     exists delta, w_trace (snd (generateLogData cfg p w)) = delta ++ w_trace w /\
       sleep_total delta = 130 /\
       List.length (filter (fun e => match e with EvSleep _ => true | _ => false end) delta) = 8%nat) /\
  (w_pty_start w (startpty_base_cmd cfg [] w) = None ->
     w_trace (snd (generateLogData cfg p w)) = [EvPtyStart (startpty_base_cmd cfg [] w)] ++ w_trace w).
Proof.
  split.
  - intros fd P. destruct (generateLogData_run cfg p w fd P) as [_ Ht].
    exists (rev (generateLogData_script cfg p fd) ++ [EvPtyStart (startpty_base_cmd cfg [] w)]).
    split; [|split; reflexivity].
    rewrite Ht, StartPty_cases, pty_start_tail_run, P.
    cbn [snd w_trace with_ptyFile with_files with_event]. rewrite <- app_assoc. reflexivity.
  - intros P.
    assert (HS : StartPty cfg false [] w
                 = (Done (None, None, Some ErrStartPty),
                    with_ptyFile (with_event w (EvPtyStart (startpty_base_cmd cfg [] w))) None)).
    { rewrite StartPty_cases, pty_start_tail_run, P. reflexivity. }
    unfold generateLogData; unfold_monad. rewrite HS. reflexivity.
Qed.

(** X9: [Stop] never panics and never changes [ptyFile]; it changes at
    most the tracked file, marking it closed, keeps every other file as it
    was, and records at most one system call, the close of that file. *)
Theorem Stop_frame w :
  exists r, fst (Stop w) = Done r /\
    w_ptyFile (snd (Stop w)) = w_ptyFile w /\
    List.length (w_files (snd (Stop w))) = List.length (w_files w) /\
    (forall j, w_ptyFile w <> Some j -> nth_error (w_files (snd (Stop w))) j = nth_error (w_files w) j) /\
    ((r = None /\ exists id fo, w_ptyFile w = Some id /\ nth_error (w_files w) id = Some fo /\
        fo_closed fo = false /\
        nth_error (w_files (snd (Stop w))) id = Some {| fo_fd := fo_fd fo; fo_closed := true |} /\
        w_trace (snd (Stop w)) = EvClose (fo_fd fo) :: w_trace w) \/
     (r <> None /\ snd (Stop w) = w)).
Proof.
  destruct (w_ptyFile w) as [id|] eqn:Hp.
  - destruct (nth_error (w_files w) id) as [fo|] eqn:Hfo.
    + destruct (fo_closed fo) eqn:Hc.
      * rewrite (Stop_on_closed w id fo Hp Hfo Hc).
        eexists; split; [reflexivity|]. cbn [snd].
        split; [exact Hp|]. split; [reflexivity|]. split; [reflexivity|].
        right. split; [discriminate|reflexivity].
      * assert (Hlt : (id < List.length (w_files w))%nat)
          by (apply nth_error_Some; congruence).
        rewrite (Stop_on_open w id fo Hp Hfo Hc).
        eexists; split; [reflexivity|]. cbn [snd w_ptyFile w_files w_trace with_event with_files].
        split; [exact Hp|]. split; [apply length_list_set|].
        split; [intros j Hj; apply nth_error_list_set_other; congruence|].
        left. split; [reflexivity|]. exists id, fo.
        split; [reflexivity|]. split; [exact Hfo|]. split; [exact Hc|].
        split; [apply nth_error_list_set; exact Hlt|reflexivity].
    + assert (E : Stop w = (Done (Some (ErrCloseFile ErrInvalid)), w)).
      { unfold Stop; unfold_monad. rewrite Hp. cbv beta iota. rewrite Hfo. reflexivity. }
      rewrite E. eexists; split; [reflexivity|]. cbn [snd].
      split; [exact Hp|]. split; [reflexivity|]. split; [reflexivity|].
      right. split; [discriminate|reflexivity].
  - assert (E : Stop w = (Done (Some (ErrCloseFile ErrInvalid)), w)).
    { unfold Stop; unfold_monad. rewrite Hp. reflexivity. }
    rewrite E. eexists; split; [reflexivity|]. cbn [snd].
    split; [exact Hp|]. split; [reflexivity|]. split; [reflexivity|].
    right. split; [discriminate|reflexivity].
Qed.

(** X10: [SetSize] never panics and changes nothing but the trace: it
    always issues one resize, with both values truncated to [uint16], on the
    descriptor of the open file [ptyFile] holds, or on -1 when there is no
    open session; it fails with [EBADF] on a negative descriptor and
    otherwise passes on exactly the errno the resize reports. *)
Theorem SetSize_frame w cols rows :
  exists fd, snd (SetSize cols rows w) = with_event w (EvIoctlSetWinsize fd (to_uint16 cols) (to_uint16 rows)) /\
    (forall id fo, w_ptyFile w = Some id -> nth_error (w_files w) id = Some fo ->
       fo_closed fo = false -> fd = fo_fd fo) /\
    (~ (exists id fo, w_ptyFile w = Some id /\ nth_error (w_files w) id = Some fo /\
          fo_closed fo = false) -> fd = -1) /\
    fst (SetSize cols rows w) =
      Done (if fd <? 0 then Some (ErrSetSize EBADF)
            else match w_ioctl w fd (to_uint16 cols, to_uint16 rows) with
                 | Some errno => Some (ErrSetSize errno)
                 | None => None
                 end).
Proof.
  unfold SetSize; unfold_monad.
  destruct (w_ptyFile w) as [id|] eqn:Hp; cbv beta iota.
  - destruct (nth_error (w_files w) id) as [fo|] eqn:Hfo; cbv beta iota.
    + destruct (fo_closed fo) eqn:Hc; cbv beta iota.
      * exists (-1). split; [reflexivity|].
        split; [intros id' fo' Hid' Hfo' Hc'; congruence|].
        split; [reflexivity|]. reflexivity.
      * exists (fo_fd fo).
        assert (Hopen : forall id' fo', Some id = Some id' -> nth_error (w_files w) id' = Some fo' ->
                          fo_closed fo' = false -> fo_fd fo = fo_fd fo').
        { intros id' fo' Hid' Hfo' _. injection Hid' as <-. congruence. }
        assert (Hnone : ~ (exists id' fo', Some id = Some id' /\ nth_error (w_files w) id' = Some fo' /\
                            fo_closed fo' = false) -> fo_fd fo = -1).
        { intros Hn. exfalso. apply Hn. exists id, fo. auto. }
        destruct (fo_fd fo <? 0);
          [split; [reflexivity|split; [exact Hopen|split; [exact Hnone|reflexivity]]]|].
        destruct (w_ioctl w (fo_fd fo) (to_uint16 cols, to_uint16 rows));
          (split; [reflexivity|split; [exact Hopen|split; [exact Hnone|reflexivity]]]).
    + exists (-1). split; [reflexivity|].
      split; [intros id' fo' Hid' Hfo' _; injection Hid' as <-; congruence|].
      split; reflexivity.
  - exists (-1). split; [reflexivity|].
    split; [intros id' fo' Hid'; discriminate Hid'|].
    split; reflexivity.
Qed.

(** X11: [StartPty] with [runAsSsmUser] false never panics, runs no
    identity query and does not create the restricted user: its only system
    action is one [pty.Start] of the shell command without a credential, so
    the child runs as the agent. *)
Theorem StartPty_as_agent cfg s w :
  exists r, fst (StartPty cfg false s w) = Done r /\
    w_trace (snd (StartPty cfg false s w)) = EvPtyStart (startpty_base_cmd cfg s w) :: w_trace w /\
    SysProcAttrCredential (startpty_base_cmd cfg s w) = None.
Proof.
  assert (Hc : SysProcAttrCredential (startpty_base_cmd cfg s w) = None).
  { unfold startpty_base_cmd, set_Env, shell_cmd.
    destruct (list_eq_dec Z.eq_dec (Getenv langEnvVariableKey (w_environ w)) []);
      destruct (list_eq_dec Z.eq_dec (TrimSpace s) []); reflexivity. }
  rewrite StartPty_cases, pty_start_tail_run.
  destruct (w_pty_start w (startpty_base_cmd cfg s w)); cbv zeta;
    (eexists; split; [reflexivity|split; [reflexivity|exact Hc]]).
Qed.

Lemma getUserCredentials_error_zero_witness :
  0 = 0 /\ 0 = 0 /\ @nil Z = [].
Proof.
  apply (getUserCredentials_error_zero sample_cfg nouser_world 0 0 []
           (ErrCmdOutput (Args (uid_query sample_cfg)))).
  vm_compute. reflexivity.
Defined.

Lemma getUserCredentials_success_groups_witness :
  exists ogr, w_exec test_world (Args (groups_query sample_cfg)) = Some ogr /\
    List.length [1001; 1004] = List.length (skipn 2 (Split ogr 32)) /\
    Forall (fun x => 0 <= x < 2 ^ 32) [1001; 1004] /\ 0 <= 1001 < 2 ^ 32 /\ 0 <= 1001 < 2 ^ 32 /\
    w_trace (snd (getUserCredentials sample_cfg test_world)) =
      rev (map (fun name => EvExec (Args (group_query sample_cfg name))) (skipn 2 (Split ogr 32)))
      ++ [EvExec (Args (groups_query sample_cfg)); EvExec (Args (gid_query sample_cfg));
          EvExec (Args (uid_query sample_cfg))] ++ w_trace test_world.
Proof.
  apply (getUserCredentials_success_groups sample_cfg test_world 1001 1001 [1001; 1004]).
  vm_compute. reflexivity.
Defined.

Lemma StartPty_success_handle_witness :
  exists fd, Some 0%nat = Some (List.length (w_files test_world)) /\ Some 0%nat = Some 0%nat /\
    w_ptyFile (snd (StartPty sample_cfg false [] test_world)) = Some 0%nat /\
    w_files (snd (StartPty sample_cfg false [] test_world))
      = w_files test_world ++ [{| fo_fd := fd; fo_closed := false |}].
Proof.
  apply (StartPty_success_handle sample_cfg false [] test_world (Some 0%nat) (Some 0%nat)).
  vm_compute. reflexivity.
Defined.

Lemma StartPty_failure_state_witness :
  @None nat = None /\ @None nat = None /\
  w_files (snd (StartPty sample_cfg false [] nopty_world)) = w_files nopty_world /\
  ((w_ptyFile (snd (StartPty sample_cfg false [] nopty_world)) = w_ptyFile nopty_world /\
    exists delta, w_trace (snd (StartPty sample_cfg false [] nopty_world)) = delta ++ w_trace nopty_world /\
      forall c, ~ In (EvPtyStart c) delta) \/
   (ErrStartPty = ErrStartPty /\
    (exists c rest, w_trace (snd (StartPty sample_cfg false [] nopty_world)) = EvPtyStart c :: rest /\
       w_pty_start nopty_world c = None) /\
    w_ptyFile (snd (StartPty sample_cfg false [] nopty_world)) = None /\
    fst (Stop (snd (StartPty sample_cfg false [] nopty_world)))
      = Done (Some (ErrCloseFile ErrInvalid)))).
Proof.
  apply (StartPty_failure_state sample_cfg false [] nopty_world None None ErrStartPty).
  vm_compute. reflexivity.
Defined.

Lemma session_lifecycle_witness :
  fst (StartPty sample_cfg false [] test_world) = Done (Some 0%nat, Some 0%nat, None) /\
  fst (SetSize 80 24 (snd (StartPty sample_cfg false [] test_world))) = Done None /\
  fst (Stop (snd (SetSize 80 24 (snd (StartPty sample_cfg false [] test_world))))) = Done None /\
  w_trace (snd (Stop (snd (SetSize 80 24 (snd (StartPty sample_cfg false [] test_world))))))
    = [EvClose 5; EvIoctlSetWinsize 5 (to_uint16 80) (to_uint16 24);
       EvPtyStart (startpty_base_cmd sample_cfg [] test_world)] ++ w_trace test_world /\
  fst (Stop (snd (Stop (snd (SetSize 80 24 (snd (StartPty sample_cfg false [] test_world)))))))
    = Done (Some (ErrCloseFile ErrClosed)) /\
  fst (SetSize 80 24 (snd (Stop (snd (SetSize 80 24 (snd (StartPty sample_cfg false [] test_world)))))))
    = Done (Some (ErrSetSize EBADF)).
Proof.
  apply (session_lifecycle sample_cfg test_world 5 80 24); [reflexivity | lia | reflexivity].
Defined.

Lemma generateLogData_clobbers_ptyFile_witness :
  w_ptyFile (snd (generateLogData sample_cfg sample_plugin open_world)) = Some 1%nat /\
  fst (Stop (snd (generateLogData sample_cfg sample_plugin open_world)))
    = Done (Some (ErrCloseFile ErrClosed)) /\
  fst (SetSize 80 24 (snd (generateLogData sample_cfg sample_plugin open_world)))
    = Done (Some (ErrSetSize EBADF)).
Proof.
  apply (generateLogData_clobbers_ptyFile sample_cfg sample_plugin open_world 5 80 24).
  reflexivity.
Defined.
